(* ===== verification/_CoqProject ===== *)
-Q . S2P
Prelude.v
Builtins.v
Utf8.v
Enumerator.v
Runtime.v
Driver.v
Loop.v
Report.v
Console.v
