(* ===== verification/Prelude.v ===== *)
(** * A verification development of [src/create_report.py] (umockdev-hid)

    ** The program

    One Python script of 42 lines, run with no arguments.  Its two parts
    share three lists and the working directory:

    - the device enumerator (lines 4-15) runs [lsusb -d 413c:] with its
      output piped, decodes the bytes as UTF-8, splits the text at
      ['\n'], skips the lines that [str.strip()] empties, and appends,
      for each other line, field 2 of [str.split()] to [bus], field 4
      stripped of colons to [device], and the text after the first colon
      of field 6 to [pid];
    - the recorder/replayer driver (lines 17-43) loops over
      [range(0, len(bus))]; for index [i] it echoes and runs
      [umockdev-record /dev/bus/usb/<bus>/<device>] with its output
      captured into [<bus>.<device>.umockdev], then echoes and runs
      [umockdev-record --ioctl=<devname>=<bus>.<device>.ioctl ./hidreport <pid>]
      and [umockdev-run --device=<bus>.<device>.umockdev --ioctl=... ./hidreport <pid>],
      and prints a blank line.  No exit status is read, no exception is
      caught.

    ** Files, in dependency order

    - [Prelude] (this file): the [result] type of fallible code with
      stdpp's monad notation and [raise] in [report_scope], the [report]
      hint databases, the tactics
      [result_cases], [zlia], [ztest], [zbool_hyps], and [lor_low].
    - [Builtins]: the Python built-ins the script calls, each following
      CPython's algorithm: [str.split()] ([str_split_ws]),
      [str.split(sep)] ([str_split_char]), [str.strip()] /
      [str.strip(c)] ([str_strip], [str_strip_char]), [sep.join]
      ([str_join]), [xs[i]] ([py_getitem], raising [IndexError]),
      [str.isspace] ([is_space], CPython's whitespace table), and the
      exceptions [exn].  A Python [str] is a [list Z] of code points.
    - [Utf8] (Module [Utf8]): [bytes.decode('utf-8')] as CPython's strict
      decoder [decode] on byte values, the encoder [encode] as its
      reference.
    - [Enumerator] (Module [Enumerator]): lines 7-15.  [enum_state] is the
      record of the lists [bus], [device], [pid]; [step_line] is one loop
      iteration, [enumerate] the loop over [out.split('\n')].  The
      reference [parse_line]/[parse_handles] reads lines into
      [device_handle] records (the spec's DeviceHandle).
    - [Runtime]: the effects.  A [world] holds the files of the working
      directory ([gmap] from name to bytes) and the log of observable
      events (prints, process spawns, child output, file writes).
      [PyM] is the state-and-exception monad the script runs in;
      [py_print], [popen_communicate], [subprocess_call], [write_file]
      are [print], [Popen(...).communicate()], [subprocess.call],
      [open(..., 'wb').write].  The operating system is the class
      [Externals]: [run_program], an oracle from argument vector and
      files to exit status, output and files, or [None] when the program
      cannot be launched; and [store], the [write_outcome] of a write
      (written, [open] refused, or the write failed after keeping a
      prefix), a failure raising [OSError].  [reliable] is a system where
      everything launches and every write succeeds.  The class
      [UmockdevContract] states what the script relies on from
      [umockdev-record --ioctl].  [sim_with] is a simulated system
      satisfying the contract, [full_disk] the same programs on a disk
      that refuses every write, used by the witnesses.
    - [Driver] (Module [Driver]): lines 17-43.  [basename], [devname] and
      [cmd_record_device], [cmd_record_ioctl], [cmd_replay] build the
      strings; [record_device] is one iteration (it reads [bus[i]],
      [device[i]] on lines 19-20 and [pid[i]] on lines 33 and 40, where
      the source reads them), composed of the three commented stages of
      the source: [record_descriptor] (lines 22-28), [record_ioctls]
      (30-35) and [replay_ioctls] (37-43); [record_all] is the loop.  [plan] is the
      abstract per-device command plan of the spec.
    - [Loop] (Module [Loop]): the [for] statement of line 18 as a state
      machine: [loop_state] is the counter with the world, the normal
      exit or a raised exception; [loop_step] one iteration
      ([record_device]); [step] and [run] the same, executable with fuel.
    - [Report] (Module [Report]): [main], the whole script.
    - [Console] (Module [Console]): what reaches the terminal or the log
      file.  [console] is [sys.stdout]'s pending buffer and what has been
      written; [console_step] interprets one event of the log, flushing
      at every [print] on a terminal ([Tty]) and when [buffer_size]
      bytes are pending otherwise ([Pipe]); children write directly.

    ** What is proved

    The properties of the script (the claims C1-C21, each a doc comment
    naming its id):
    - Enumerator: the field of each index ([split()[1]],
      [[3].strip(':')], [[5].split(':')[1]] of the k-th non-blank line)
      and one device per non-blank line; success exactly on well-formed
      listings and [IndexError] otherwise; the equal-length invariant of
      the three lists; blank lines change nothing.
    - Driver: the exact event sequence of one iteration; no
      [IndexError] on the enumerator's lists; the launch-failure and the
      write-failure paths ([OSError], the descriptor holding only what
      the system kept); the replay reads the descriptor captured in the
      same iteration (under [UmockdevContract]); fixture names are
      injective for dot-free tokens.
    - Loop: every reachable state satisfies [loop_inv] (rule induction
      over [rtc]): the started processes are the plan of the devices
      handled so far, and after an exception a strict prefix of one
      device's commands and nothing of later devices; on a reliable
      system every device's replay is eventually started (liveness).
    - Report: end to end, [lsusb] then three commands per non-blank line
      ([1 + 3k] processes); a malformed line or undecodable output stops
      the script after [lsusb] with nothing written; exit statuses never
      matter; a run that ends normally leaves both fixture files of every
      listed device (through the [Loop] machine and [fixtures_inv]); a
      run that raises started a prefix of the plan.
    - Console: one iteration on a terminal shows each echo before its
      command's output, through a pipe all four echoes after the
      outputs; when [umockdev-record] is missing the traceback comes
      after the echo on a terminal and before it with [2>&1] into a
      pipe.

    Library lemmas the claims rest on, about the models of CPython's
    built-ins and runtime rather than about the script: [str.split()]
    against its reference, the split/join round trips, [strip], the
    UTF-8 decoder's round trips and range, the buffering model for any
    log ([screen_tty], [screen_pipe_small], [exit_screen_pipe_small]),
    termination of the [Loop] machine for any body and its agreement
    with [record_all].  The [Example]s evaluate the model on fixed
    inputs (the spec's example line, a simulated system, a full disk)
    as regression tests.

    ** Bounds, fuel and what is not modelled

    Every loop of the script is a structural recursion over a finite
    list ([out.split('\n')], [range(0, len(bus))]), so no fuel is
    needed and every definition computes; [Loop.run] takes fuel only to
    mirror the step machine, and [len(bus) - i + 1] steps are proved
    enough ([loop_stops]).  Integers are [Z]: code
    points and bytes are small and the script does no arithmetic that
    can overflow.  Not modelled: the behaviour of [lsusb], [umockdev-*]
    and [./hidreport] beyond [Externals], [UmockdevContract] and
    [KeepsFiles]; the children's standard error, which goes to file
    descriptor 2 and touches no state of the script; the frame lines of
    a traceback (only its first and last lines are modelled); signals and
    hangs of child processes (a hung child hangs the script: every
    theorem about a run assumes [run_program] returns).
    [Console] abstracts CPython's two buffer layers of [sys.stdout]
    (the text layer and the 8192-byte [BufferedWriter]) as one buffer of
    [buffer_size] bytes; the ordering theorem needs only that nothing is
    written before that many bytes are pending, which both layers
    satisfy for the short lines the script prints.  Its statement
    assumes the UTF-8 locale the script runs in.

    ** Plan of the remaining work

    - the kind of a launch failure: [run_program] answers [None] for
      every program that cannot be started, which [popen_communicate]
      and [subprocess_call] raise as [FileNotFoundError]; CPython raises
      [PermissionError] (another [OSError]) for a file that is not
      executable;
    - [Console] for runs that print [buffer_size] bytes or more, where
      the echo lines reach the screen in blocks between children's
      output. *)

From stdpp Require Export base list gmap.
From Stdlib Require Export ZArith.

Declare Scope report_scope.
Delimit Scope report_scope with report.

Create HintDb report discriminated.
Create Rewrite HintDb report.

(** ** Fallible results

    Code that raises a Python exception returns [Err e]; the scripts's
    exceptions are never caught, so an [Err] ends the run. *)

Inductive result (E A : Type) : Type :=
| Ok (a : A)
| Err (e : E).
Arguments Ok {E A} a.
Arguments Err {E A} e.

(** [raise e]: the Python statement, as the value of a fallible
    computation. *)
Notation "'raise' e" := (Err e) (at level 10, e at level 9) : report_scope.

#[export] Instance result_ret {E} : MRet (result E) := fun _ a => Ok a.
#[export] Instance result_bind {E} : MBind (result E) :=
  fun _ _ k r => match r with Ok a => k a | Err e => Err e end.

Definition is_ok {E A} (r : result E A) : bool :=
  match r with Ok _ => true | Err _ => false end.

Lemma result_bind_Ok {E A B} (a : A) (k : A -> result E B) :
  (Ok a ≫= k) = k a.
Proof. reflexivity. Qed.

Lemma result_bind_Err {E A B} (e : E) (k : A -> result E B) :
  (Err e ≫= k) = Err e.
Proof. reflexivity. Qed.

Lemma result_bind_eq_Ok {E A B} (r : result E A) (k : A -> result E B) b :
  (r ≫= k) = Ok b <-> exists a, r = Ok a /\ k a = Ok b.
Proof.
  destruct r as [a|e]; simpl; split.
  - intros H; eauto.
  - intros (a' & [= ->] & H); exact H.
  - discriminate.
  - intros (a' & ? & _); discriminate.
Qed.

#[export] Hint Rewrite @result_bind_Ok @result_bind_Err : report.

(** Invert a hypothesis [r ≫= k = Ok b] into its two steps. *)
Ltac result_inv H :=
  apply result_bind_eq_Ok in H as (? & ? & H).

(** Unfold the binds of [result] and split on every intermediate result. *)
Ltac result_cases :=
  unfold mbind, result_bind in *; repeat case_match; simplify_eq; try done.

(** ** Integers *)

(** [lia] after turning [/] and [mod] by constants into equations. *)
Ltac zlia := Z.div_mod_to_equations; lia.

(** Evaluate every comparison of integers in the goal whose value [zlia]
    decides. *)
Ltac ztest :=
  repeat match goal with
  | |- context [Z.ltb ?a ?b] =>
      first [ rewrite (proj2 (Z.ltb_lt a b)) by zlia | rewrite (proj2 (Z.ltb_ge a b)) by zlia ]
  | |- context [Z.leb ?a ?b] =>
      first [ rewrite (proj2 (Z.leb_le a b)) by zlia | rewrite (proj2 (Z.leb_gt a b)) by zlia ]
  | |- context [Z.eqb ?a ?b] =>
      first [ rewrite (proj2 (Z.eqb_eq a b)) by zlia | rewrite (proj2 (Z.eqb_neq a b)) by zlia ]
  end; cbn [andb orb negb].

(** Turn boolean tests on integers in the hypotheses into propositions. *)
Ltac zbool_hyps :=
  repeat match goal with
  | H : (_ || _)%bool = true |- _ => apply orb_true_iff in H as [H|H]
  | H : (_ || _)%bool = false |- _ => apply orb_false_iff in H as [? H]
  | H : (_ && _)%bool = true |- _ => apply andb_true_iff in H as [? H]
  | H : (_ && _)%bool = false |- _ => apply andb_false_iff in H as [H|H]
  | H : negb _ = true |- _ => apply negb_true_iff in H
  | H : negb _ = false |- _ => apply negb_false_iff in H
  | H : Z.ltb _ _ = true |- _ => apply Z.ltb_lt in H
  | H : Z.ltb _ _ = false |- _ => apply Z.ltb_ge in H
  | H : Z.leb _ _ = true |- _ => apply Z.leb_le in H
  | H : Z.leb _ _ = false |- _ => apply Z.leb_gt in H
  | H : Z.eqb _ _ = true |- _ => apply Z.eqb_eq in H
  | H : Z.eqb _ _ = false |- _ => apply Z.eqb_neq in H
  end.

(** Or-ing a value below [2^k] into a multiple of [2^k] adds it. *)
Lemma lor_low (a b k : Z) :
  (0 <= k)%Z -> (0 <= b < 2 ^ k)%Z -> Z.lor (a * 2 ^ k) b = (a * 2 ^ k + b)%Z.
Proof.
  intros Hk Hb.
  assert (Hand : Z.land (a * 2 ^ k) b = 0%Z).
  { apply Z.bits_inj'. intros n Hn. rewrite Z.land_spec, Z.bits_0.
    destruct (Z.lt_ge_cases n k) as [Hlt|Hge].
    - rewrite <- Z.shiftl_mul_pow2 by done. by rewrite Z.shiftl_spec_low.
    - rewrite <- (Z.mod_small b (2 ^ k)) by lia.
      rewrite Z.mod_pow2_bits_high by lia. apply andb_false_r. }
  rewrite Z.add_nocarry_lxor by done. by rewrite Z.lxor_lor.
Qed.
