(* ===== verification/Builtins.v ===== *)
(** The Python built-ins that [src/create_report.py] calls on text and
    lists: code points, [str.isspace], [str.split()], [str.split(sep)],
    [str.strip()], [str.strip(chars)], [sep.join(xs)], [xs[i]] with its
    [IndexError], and the exceptions the script can raise.  Each
    operation follows CPython's algorithm (Objects/stringlib/split.h,
    Objects/unicodeobject.c do_strip); the theorems relate them to
    simpler reference definitions and give their round trips. *)

From Stdlib Require Import String.
From S2P Require Import Prelude.

#[local] Open Scope Z_scope.
#[local] Open Scope report_scope.

(** ** Exceptions the script can raise (none is caught) *)

Inductive exn : Type :=
| IndexError            (** [xs[i]] out of range: lines 13-15, 19-20, 33, 40 *)
| UnicodeDecodeError    (** [bytes.decode('utf-8')] on invalid input: line 6 *)
| FileNotFoundError     (** [subprocess] cannot launch the program *)
| OSError.              (** [open(..., 'wb')] or [write] refused: lines 27-28 *)

#[export] Instance exn_eq_dec : EqDecision exn.
Proof. solve_decision. Qed.

(** ** Text: a Python [str] is a sequence of code points *)


(** A source literal: the code points of an ASCII string. *)
Fixpoint lit (s : string) : list Z :=
  match s with
  | EmptyString => []
  | String a s' => Z.of_N (Ascii.N_of_ascii a) :: lit s'
  end.

(** [Py_UNICODE_ISSPACE]: the code points [str.split()] and
    [str.strip()] treat as whitespace (CPython's [_Py_ascii_whitespace]
    below 128, [_PyUnicode_IsWhitespace] above). *)
Definition is_space (c : Z) : bool :=
  ((9 <=? c) && (c <=? 13)) || ((28 <=? c) && (c <=? 32))
  || (c =? 0x85) || (c =? 0xA0) || (c =? 0x1680)
  || ((0x2000 <=? c) && (c <=? 0x200A))
  || (c =? 0x2028) || (c =? 0x2029) || (c =? 0x202F)
  || (c =? 0x205F) || (c =? 0x3000).

(** [str.split(sep)] for a one-character separator (the script splits
    on ['\n'] and [':']): CPython's [split_char] scans left to right and
    cuts at every separator, keeping empty pieces.  [cur] is the current
    piece, reversed. *)
Fixpoint split_char_acc (sep : Z) (cur : list Z) (s : list Z) : list (list Z) :=
  match s with
  | [] => [rev cur]
  | c :: s' =>
      if c =? sep then rev cur :: split_char_acc sep [] s'
      else split_char_acc sep (c :: cur) s'
  end.

Definition str_split_char (sep : Z) (s : list Z) : list (list Z) :=
  split_char_acc sep [] s.

(** [str.split()] with no argument: CPython's [split_whitespace] skips
    runs of whitespace and emits the maximal runs of other code points. *)
Fixpoint split_ws_acc (cur : list Z) (s : list Z) : list (list Z) :=
  match s with
  | [] => match cur with [] => [] | _ => [rev cur] end
  | c :: s' =>
      if is_space c then
        match cur with
        | [] => split_ws_acc [] s'
        | _ => rev cur :: split_ws_acc [] s'
        end
      else split_ws_acc (c :: cur) s'
  end.

Definition str_split_ws (s : list Z) : list (list Z) := split_ws_acc [] s.

(** Reference definition: cut at every code point satisfying [p]. *)
Fixpoint split_on (p : Z -> bool) (s : list Z) : list (list Z) :=
  match s with
  | [] => [[]]
  | c :: s' =>
      if p c then [] :: split_on p s'
      else match split_on p s' with
           | w :: ws => (c :: w) :: ws
           | [] => [[c]]
           end
  end.

(** [str.strip(chars)] and [str.strip()]: CPython's [do_strip] and
    [do_argstrip] advance from the left, then retreat from the right,
    over the code points [p] accepts. *)
Fixpoint lstrip_by (p : Z -> bool) (s : list Z) : list Z :=
  match s with
  | [] => []
  | c :: s' => if p c then lstrip_by p s' else s
  end.

Definition strip_by (p : Z -> bool) (s : list Z) : list Z :=
  rev (lstrip_by p (rev (lstrip_by p s))).

Definition str_strip (s : list Z) : list Z := strip_by is_space s.

Definition str_strip_char (c : Z) (s : list Z) : list Z := strip_by (Z.eqb c) s.

(** [sep.join(xs)]. *)
Fixpoint str_join (sep : list Z) (xs : list (list Z)) : list Z :=
  match xs with
  | [] => []
  | [x] => x
  | x :: xs' => x ++ sep ++ str_join sep xs'
  end.

(** The text has no occurrence of the code point [c]
    ([c not in s]). *)
Definition without (c : Z) (s : list Z) : bool := forallb (fun x => negb (x =? c)) s.

(** [xs[i]] for an index [i >= 0]; the script only indexes with literals
    and with [range(0, len(bus))], so negative indices do not occur. *)
Definition py_getitem {A} (xs : list A) (i : nat) : result exn A :=
  match xs !! i with
  | Some x => Ok x
  | None => raise IndexError
  end.

Example split_ws_lsusb_line :
  str_split_ws (lit "Bus 002 Device 004: ID 413c:301a Dell")
  = [lit "Bus"; lit "002"; lit "Device"; lit "004:"; lit "ID";
     lit "413c:301a"; lit "Dell"].
Proof. vm_compute. reflexivity. Qed.

(** ** [str.split(sep)] *)

Lemma split_on_cons_ex (p : Z -> bool) (s : list Z) :
  exists w ws, split_on p s = w :: ws.
Proof.
  induction s as [|c s' (w & ws & IH)]; simpl; [eauto|].
  rewrite IH. destruct (p c); eauto.
Qed.

Lemma split_char_acc_spec (sep : Z) (cur s : list Z) :
  split_char_acc sep cur s =
  match split_on (fun c => c =? sep) s with
  | w :: ws => (rev cur ++ w) :: ws
  | [] => [rev cur]
  end.
Proof.
  revert cur. induction s as [|c s' IH]; intros cur; simpl.
  - by rewrite app_nil_r.
  - destruct (split_on_cons_ex (fun c => c =? sep) s') as (w & ws & Hs).
    destruct (c =? sep); rewrite IH, Hs; simpl.
    + by rewrite app_nil_r.
    + by rewrite <- app_assoc.
Qed.

(** [str.split(sep)] is the reference cut at every separator. *)
Lemma str_split_char_spec (sep : Z) (s : list Z) :
  str_split_char sep s = split_on (fun c => c =? sep) s.
Proof.
  unfold str_split_char. rewrite split_char_acc_spec.
  destruct (split_on_cons_ex (fun c => c =? sep) s) as (w & ws & ->). done.
Qed.

Lemma str_join_cons_head (sep : list Z) (c : Z) (w : list Z) (ws : list (list Z)) :
  str_join sep ((c :: w) :: ws) = c :: str_join sep (w :: ws).
Proof. by destruct ws. Qed.

Lemma str_join_cons_cons (sep x y : list Z) (ws : list (list Z)) :
  str_join sep (x :: y :: ws) = x ++ sep ++ str_join sep (y :: ws).
Proof. reflexivity. Qed.

#[export] Hint Rewrite str_join_cons_head str_join_cons_cons : report.

Lemma split_on_join (sep : Z) (s : list Z) :
  str_join [sep] (split_on (fun c => c =? sep) s) = s.
Proof.
  induction s as [|c s' IH]; [done|]. simpl.
  destruct (split_on_cons_ex (fun c => c =? sep) s') as (w & ws & Hs).
  destruct (Z.eqb_spec c sep) as [->|Hne].
  - rewrite Hs in IH |- *. rewrite str_join_cons_cons, IH. done.
  - rewrite Hs in IH |- *. rewrite str_join_cons_head, IH. done.
Qed.

Lemma split_on_no_sep (p : Z -> bool) (w : list Z) :
  Forall (fun c => p c = false) w -> split_on p w = [w].
Proof.
  induction 1 as [|c w Hc _ IH]; [done|]. simpl. by rewrite Hc, IH.
Qed.

Lemma split_on_app_sep (p : Z -> bool) (w : list Z) (c : Z) (s : list Z) :
  Forall (fun c => p c = false) w -> p c = true ->
  split_on p (w ++ c :: s) = w :: split_on p s.
Proof.
  induction 1 as [|c' w Hc' _ IH]; intros Hc; simpl; [by rewrite Hc|].
  by rewrite Hc', IH.
Qed.

(** Splitting at a one-character separator and joining back gives the
    text: [sep.join(s.split(sep)) == s]. *)
Theorem str_split_char_join (sep : Z) (s : list Z) :
  str_join [sep] (str_split_char sep s) = s.
Proof. rewrite str_split_char_spec. apply split_on_join. Qed.

Lemma split_on_join_inv (p : Z -> bool) (sep : Z) (ws : list (list Z)) :
  p sep = true -> ws <> [] -> Forall (Forall (fun c => p c = false)) ws ->
  split_on p (str_join [sep] ws) = ws.
Proof.
  intros Hsep Hne Hws. induction Hws as [|w ws Hw Hws IH]; [done|].
  destruct ws as [|w' ws].
  - by apply split_on_no_sep.
  - rewrite str_join_cons_cons. cbn [app].
    rewrite split_on_app_sep by done. by rewrite IH.
Qed.

Lemma split_on_pieces (p : Z -> bool) (s : list Z) :
  Forall (Forall (fun c => p c = false)) (split_on p s).
Proof.
  induction s as [|c s' IH]; simpl; [by repeat constructor|].
  destruct (p c) eqn:Hc; [by constructor|].
  destruct (split_on p s') as [|w ws]; inversion IH; subst; by repeat constructor.
Qed.

(** Joining pieces free of the separator and splitting again gives the
    pieces back. *)
Theorem str_join_split_char (sep : Z) (ws : list (list Z)) :
  ws <> [] -> Forall (Forall (fun c => (c =? sep) = false)) ws ->
  str_split_char sep (str_join [sep] ws) = ws.
Proof.
  rewrite str_split_char_spec. apply split_on_join_inv, Z.eqb_refl.
Qed.

(** ** [str.split()] *)

Definition nonempty_pieces (ws : list (list Z)) : list (list Z) :=
  filter (fun w => w <> []) ws.

Lemma split_ws_acc_spec (cur s : list Z) :
  split_ws_acc cur s =
  match cur, split_on is_space s with
  | [], ws => nonempty_pieces ws
  | _, w :: ws => (rev cur ++ w) :: nonempty_pieces ws
  | _, [] => [rev cur]
  end.
Proof.
  unfold nonempty_pieces.
  revert cur. induction s as [|c s' IH]; intros cur; simpl.
  - destruct cur; simpl; [done|]. by rewrite app_nil_r.
  - destruct (split_on_cons_ex is_space s') as (w & ws & Hs).
    destruct (is_space c) eqn:Hc.
    + destruct cur as [|a cur]; rewrite IH, Hs; simpl.
      * symmetry. by rewrite filter_cons_False by tauto.
      * by rewrite app_nil_r.
    + rewrite IH, Hs. destruct cur as [|a cur]; simpl.
      * by rewrite filter_cons_True by done.
      * by rewrite <- !app_assoc.
Qed.

(** CPython's [split_whitespace] computes the reference: cut at every
    whitespace code point and drop the empty pieces. *)
Theorem str_split_ws_spec (s : list Z) :
  str_split_ws s = nonempty_pieces (split_on is_space s).
Proof. unfold str_split_ws. by rewrite split_ws_acc_spec. Qed.

Lemma nonempty_pieces_id (ws : list (list Z)) :
  Forall (fun w => w <> []) ws -> nonempty_pieces ws = ws.
Proof. unfold nonempty_pieces. induction 1; [done|]. by rewrite filter_cons_True, IHForall. Qed.

Lemma nonempty_pieces_Forall (P : list Z -> Prop) (ws : list (list Z)) :
  Forall P ws -> Forall (fun w => w <> [] /\ P w) (nonempty_pieces ws).
Proof.
  unfold nonempty_pieces. induction 1 as [|w ws Hw _ IH]; [constructor|].
  destruct (decide (w = [])) as [->|Hne].
  - by rewrite filter_cons_False by tauto.
  - rewrite filter_cons_True by done. by constructor.
Qed.

(** Every field [str.split()] returns is non-empty and free of
    whitespace. *)
Theorem str_split_ws_fields (s : list Z) :
  Forall (fun w => w <> [] /\ Forall (fun c => is_space c = false) w) (str_split_ws s).
Proof.
  unfold str_split_ws. rewrite split_ws_acc_spec.
  apply nonempty_pieces_Forall, split_on_pieces.
Qed.

(** Non-empty whitespace-free fields joined with single spaces are split
    back into the same fields. *)
Theorem str_split_ws_join (ws : list (list Z)) :
  Forall (fun w => w <> [] /\ Forall (fun c => is_space c = false) w) ws ->
  str_split_ws (str_join [32] ws) = ws.
Proof.
  intros Hws. unfold str_split_ws. rewrite split_ws_acc_spec.
  destruct ws as [|w ws]; [done|].
  rewrite split_on_join_inv; [|done|done|].
  - apply nonempty_pieces_id. eapply Forall_impl; [exact Hws|]. naive_solver.
  - eapply Forall_impl; [exact Hws|]. naive_solver.
Qed.

(** ** [str.strip()] and [str.strip(chars)] *)

Lemma lstrip_by_spec (p : Z -> bool) (s : list Z) :
  exists l, s = l ++ lstrip_by p s /\ Forall (fun c => p c = true) l /\
    match lstrip_by p s with [] => True | c :: _ => p c = false end.
Proof.
  induction s as [|c s' (l & Hs & Hl & Hh)]; simpl.
  - by exists [].
  - destruct (p c) eqn:Hc.
    + exists (c :: l). simpl. rewrite <- Hs. by repeat constructor.
    + by exists [].
Qed.

Lemma lstrip_by_nil_iff (p : Z -> bool) (s : list Z) :
  lstrip_by p s = [] <-> Forall (fun c => p c = true) s.
Proof.
  induction s as [|c s' IH]; simpl; [split; by constructor|].
  destruct (p c) eqn:Hc.
  - rewrite IH. split; [by constructor|]. by inversion 1.
  - split; [done|]. inversion 1; congruence.
Qed.

(** [s.strip()] is empty exactly when [s] is whitespace only. *)
Lemma strip_by_nil_iff (p : Z -> bool) (s : list Z) :
  strip_by p s = [] <-> Forall (fun c => p c = true) s.
Proof.
  unfold strip_by. split.
  - intros H. apply (f_equal (@rev Z)) in H. rewrite rev_involutive in H.
    apply lstrip_by_nil_iff, Forall_rev in H. rewrite rev_involutive in H.
    apply lstrip_by_nil_iff.
    destruct (lstrip_by_spec p s) as (_ & _ & _ & Hh).
    destruct (lstrip_by p s); [done|]. inversion H; congruence.
  - intros H%lstrip_by_nil_iff. by rewrite H.
Qed.

(** [s.strip(chars)] removes a prefix and a suffix of characters
    accepted by [p], and the text it keeps neither starts nor ends with
    one. *)
Theorem strip_by_spec (p : Z -> bool) (s : list Z) :
  exists l r, s = l ++ strip_by p s ++ r /\
    Forall (fun c => p c = true) l /\ Forall (fun c => p c = true) r /\
    match strip_by p s with [] => True | c :: _ => p c = false end /\
    match rev (strip_by p s) with [] => True | c :: _ => p c = false end.
Proof.
  unfold strip_by.
  destruct (lstrip_by_spec p s) as (l & Hs & Hl & Hh).
  destruct (lstrip_by_spec p (rev (lstrip_by p s))) as (r & Hr & Hrf & Hrh).
  assert (HL : lstrip_by p s = rev (lstrip_by p (rev (lstrip_by p s))) ++ rev r).
  { rewrite <- (rev_involutive (lstrip_by p s)) at 1. rewrite Hr at 1.
    by rewrite rev_app_distr. }
  exists l, (rev r). rewrite rev_involutive. split_and!.
  - by rewrite Hs, HL at 1.
  - done.
  - by apply Forall_rev.
  - destruct (rev (lstrip_by p (rev (lstrip_by p s)))) as [|c t]; [done|].
    by rewrite HL in Hh.
  - done.
Qed.

Lemma nonempty_split_on_nil_iff (p : Z -> bool) (s : list Z) :
  nonempty_pieces (split_on p s) = [] <-> Forall (fun c => p c = true) s.
Proof.
  unfold nonempty_pieces.
  induction s as [|c s' IH]; simpl; [split; by constructor|].
  destruct (p c) eqn:Hc.
  - rewrite filter_cons_False by tauto. rewrite IH.
    split; [by constructor|]. by inversion 1.
  - destruct (split_on_cons_ex p s') as (w & ws & ->).
    rewrite filter_cons_True by done. split; [done|]. inversion 1; congruence.
Qed.

(** [str.split()] finds no field exactly when the text is whitespace
    only, that is exactly when [str.strip()] is empty: the blank-line
    test of line 11 skips precisely the lines without fields. *)
Theorem str_strip_nil_iff_split_ws (s : list Z) :
  str_strip s = [] <-> str_split_ws s = [].
Proof.
  unfold str_strip, str_split_ws. rewrite strip_by_nil_iff, split_ws_acc_spec.
  by rewrite nonempty_split_on_nil_iff.
Qed.

Lemma py_getitem_Ok {A} (xs : list A) (i : nat) (x : A) :
  py_getitem xs i = Ok x <-> xs !! i = Some x.
Proof. unfold py_getitem. destruct (xs !! i); split; congruence. Qed.

Lemma py_getitem_lt {A} (xs : list A) (i : nat) :
  (i < length xs)%nat -> exists x, py_getitem xs i = Ok x /\ xs !! i = Some x.
Proof.
  intros Hi. destruct (lookup_lt_is_Some_2 xs i Hi) as [x Hx].
  exists x. by rewrite py_getitem_Ok.
Qed.

Lemma py_getitem_ge {A} (xs : list A) (i : nat) :
  (length xs <= i)%nat -> py_getitem xs i = Err IndexError.
Proof. intros Hi. unfold py_getitem. by rewrite lookup_ge_None_2. Qed.

Lemma without_Forall (c : Z) (s : list Z) :
  without c s = true -> Forall (fun x => (x =? c) = false) s.
Proof.
  unfold without. intros H. apply Forall_forall. intros x Hx%list_elem_of_In.
  apply (proj1 (forallb_forall _ _) H) in Hx. by apply negb_true_iff.
Qed.

(** ** Witnesses *)

Lemma str_join_split_char_witness :
  str_split_char 58 (str_join [58] [lit "413c"; lit "301a"]) = [lit "413c"; lit "301a"].
Proof. apply str_join_split_char; [discriminate|repeat constructor]. Defined.

Lemma str_split_ws_join_witness :
  str_split_ws (str_join [32] [lit "ID"; lit "413c:301a"]) = [lit "ID"; lit "413c:301a"].
Proof.
  apply str_split_ws_join. repeat constructor; discriminate.
Defined.
