(* ===== verification/Utf8.v ===== *)
(** [bytes.decode('utf-8')] (line 6 of [src/create_report.py]) with
    Python's default [errors='strict']: CPython's decoder
    (Objects/stringlib/codecs.h, [utf8_decode]) accepts exactly the
    shortest encodings of the Unicode scalar values and raises
    [UnicodeDecodeError] on anything else.  [encode] is the
    encoder (CPython's [utf8_encoder]); the theorems are the two round
    trips and the range of the decoded code points. *)

From Stdlib Require Import String Strings.Byte.
From S2P Require Import Prelude Builtins.

#[local] Open Scope Z_scope.
#[local] Open Scope report_scope.

Module Utf8.

Definition byte_val (b : byte) : Z := Z.of_N (Byte.to_N b).

(** [IS_CONTINUATION_BYTE]: [0x80 <= b < 0xC0]. *)
Definition is_cont (b : Z) : bool := (0x80 <=? b) && (b <? 0xC0).

(** The decoder on byte values.  The structure follows CPython: the
    lead byte selects the length, the second byte is range-checked
    against overlong forms (after [0xE0], [0xF0]), surrogates (after
    [0xED]) and values above [0x10FFFF] (after [0xF4]), and the code
    point is assembled by shifts and one subtraction. *)
Fixpoint decode (bs : list Z) : result exn (list Z) :=
  match bs with
  | [] => Ok []
  | ch :: rest =>
      if ch <? 0x80 then
        cs ← decode rest; Ok (ch :: cs)
      else if ch <? 0xE0 then
        if ch <? 0xC2 then raise UnicodeDecodeError else
        match rest with
        | ch2 :: rest' =>
            if is_cont ch2 then
              cs ← decode rest';
              Ok ((Z.shiftl ch 6 + ch2 - (Z.shiftl 0xC0 6 + 0x80)) :: cs)
            else raise UnicodeDecodeError
        | [] => raise UnicodeDecodeError
        end
      else if ch <? 0xF0 then
        match rest with
        | ch2 :: ch3 :: rest' =>
            if negb (is_cont ch2) || ((ch =? 0xE0) && (ch2 <? 0xA0))
               || ((ch =? 0xED) && (0xA0 <=? ch2)) then raise UnicodeDecodeError
            else if negb (is_cont ch3) then raise UnicodeDecodeError
            else
              cs ← decode rest';
              Ok ((Z.shiftl ch 12 + Z.shiftl ch2 6 + ch3
                   - (Z.shiftl 0xE0 12 + Z.shiftl 0x80 6 + 0x80)) :: cs)
        | _ => raise UnicodeDecodeError
        end
      else if ch <? 0xF5 then
        match rest with
        | ch2 :: ch3 :: ch4 :: rest' =>
            if negb (is_cont ch2) || ((ch =? 0xF0) && (ch2 <? 0x90))
               || ((ch =? 0xF4) && (0x90 <=? ch2)) then raise UnicodeDecodeError
            else if negb (is_cont ch3) || negb (is_cont ch4) then raise UnicodeDecodeError
            else
              cs ← decode rest';
              Ok ((Z.shiftl ch 18 + Z.shiftl ch2 12 + Z.shiftl ch3 6 + ch4
                   - (Z.shiftl 0xF0 18 + Z.shiftl 0x80 12 + Z.shiftl 0x80 6 + 0x80)) :: cs)
        | _ => raise UnicodeDecodeError
        end
      else raise UnicodeDecodeError
  end.

(** [out.decode('utf-8')]. *)
Definition utf8_decode (out : list byte) : result exn (list Z) :=
  decode (map byte_val out).

(** The encoder of one code point (CPython's [utf8_encoder]). *)
Definition encode_char (ch : Z) : list Z :=
  if ch <? 0x80 then [ch]
  else if ch <? 0x800 then
    [Z.lor 0xC0 (Z.shiftr ch 6); Z.lor 0x80 (Z.land ch 0x3F)]
  else if ch <? 0x10000 then
    [Z.lor 0xE0 (Z.shiftr ch 12); Z.lor 0x80 (Z.land (Z.shiftr ch 6) 0x3F);
     Z.lor 0x80 (Z.land ch 0x3F)]
  else
    [Z.lor 0xF0 (Z.shiftr ch 18); Z.lor 0x80 (Z.land (Z.shiftr ch 12) 0x3F);
     Z.lor 0x80 (Z.land (Z.shiftr ch 6) 0x3F); Z.lor 0x80 (Z.land ch 0x3F)].

Definition encode (cs : list Z) : list Z := concat (map encode_char cs).

(** A Unicode scalar value: a code point that is not a surrogate. *)
Definition scalar (c : Z) : Prop := (0 <= c < 0xD800) \/ (0xE000 <= c <= 0x10FFFF).

Definition is_byte (b : Z) : Prop := 0 <= b < 256.

Example decode_ascii_line : utf8_decode (list_byte_of_string "Bus 002") = Ok (lit "Bus 002").
Proof. vm_compute. reflexivity. Qed.

Example decode_two_bytes : decode [0xC3; 0xA9] = Ok [0xE9].
Proof. vm_compute. reflexivity. Qed.

Example decode_overlong_rejected : decode [0xC0; 0xAF] = Err UnicodeDecodeError.
Proof. vm_compute. reflexivity. Qed.

Example decode_surrogate_rejected : decode [0xED; 0xA0; 0x80] = Err UnicodeDecodeError.
Proof. vm_compute. reflexivity. Qed.

(** ** Arithmetic of the bit operations *)

Lemma land_3F (x : Z) : Z.land x 0x3F = x mod 64.
Proof. change 0x3F with (Z.ones 6). by rewrite Z.land_ones. Qed.

Lemma lor_C0 (y : Z) : 0 <= y < 32 -> Z.lor 0xC0 y = 0xC0 + y.
Proof. intros. change 0xC0 with (6 * 2 ^ 5). apply lor_low; lia. Qed.
Lemma lor_80 (y : Z) : 0 <= y < 64 -> Z.lor 0x80 y = 0x80 + y.
Proof. intros. change 0x80 with (2 * 2 ^ 6). apply lor_low; lia. Qed.
Lemma lor_E0 (y : Z) : 0 <= y < 16 -> Z.lor 0xE0 y = 0xE0 + y.
Proof. intros. change 0xE0 with (14 * 2 ^ 4). apply lor_low; lia. Qed.
Lemma lor_F0 (y : Z) : 0 <= y < 8 -> Z.lor 0xF0 y = 0xF0 + y.
Proof. intros. change 0xF0 with (30 * 2 ^ 3). apply lor_low; lia. Qed.

Lemma shiftr_6 (x : Z) : Z.shiftr x 6 = x / 64.
Proof. by rewrite Z.shiftr_div_pow2. Qed.
Lemma shiftr_12 (x : Z) : Z.shiftr x 12 = x / 4096.
Proof. by rewrite Z.shiftr_div_pow2. Qed.
Lemma shiftr_18 (x : Z) : Z.shiftr x 18 = x / 262144.
Proof. by rewrite Z.shiftr_div_pow2. Qed.
Lemma shiftl_6 (x : Z) : Z.shiftl x 6 = x * 64.
Proof. by rewrite Z.shiftl_mul_pow2. Qed.
Lemma shiftl_12 (x : Z) : Z.shiftl x 12 = x * 4096.
Proof. by rewrite Z.shiftl_mul_pow2. Qed.
Lemma shiftl_18 (x : Z) : Z.shiftl x 18 = x * 262144.
Proof. by rewrite Z.shiftl_mul_pow2. Qed.

(** Close [cs ← decode rest; Ok (x :: cs) = cs ← decode rest; Ok (y :: cs)]
    by arithmetic on [x] and [y]. *)
Ltac code_point_eq :=
  match goal with
  | |- _ ≫= (fun l1 => Ok (?x :: l1)) = _ ≫= (fun l2 => Ok (?y :: l2)) =>
      replace x with y by zlia; reflexivity
  end.

(** ** The encoder's bytes *)

Lemma encode_char_1 (c : Z) : c < 0x80 -> encode_char c = [c].
Proof. intros Hc. unfold encode_char. by ztest. Qed.

Lemma encode_char_2 (c : Z) :
  0x80 <= c < 0x800 -> encode_char c = [0xC0 + c / 64; 0x80 + c mod 64].
Proof.
  intros Hc. unfold encode_char. ztest.
  by rewrite shiftr_6, land_3F, lor_C0, lor_80 by zlia.
Qed.

Lemma encode_char_3 (c : Z) :
  0x800 <= c < 0x10000 ->
  encode_char c = [0xE0 + c / 4096; 0x80 + (c / 64) mod 64; 0x80 + c mod 64].
Proof.
  intros Hc. unfold encode_char. ztest.
  by rewrite shiftr_12, shiftr_6, !land_3F, lor_E0, !lor_80 by zlia.
Qed.

Lemma encode_char_4 (c : Z) :
  0x10000 <= c <= 0x10FFFF ->
  encode_char c = [0xF0 + c / 262144; 0x80 + (c / 4096) mod 64;
                   0x80 + (c / 64) mod 64; 0x80 + c mod 64].
Proof.
  intros Hc. unfold encode_char. ztest.
  by rewrite shiftr_18, shiftr_12, shiftr_6, !land_3F, lor_F0, !lor_80 by zlia.
Qed.

(** ** The decoder on well-formed sequences *)

Lemma decode_1 (b0 : Z) (rest : list Z) :
  b0 < 0x80 -> decode (b0 :: rest) = (cs ← decode rest; Ok (b0 :: cs)).
Proof. intros H0. cbn [decode]. by ztest. Qed.

Lemma decode_2 (b0 b1 : Z) (rest : list Z) :
  0xC2 <= b0 < 0xE0 -> 0x80 <= b1 < 0xC0 ->
  decode (b0 :: b1 :: rest) = (cs ← decode rest; Ok ((b0 - 0xC0) * 64 + (b1 - 0x80) :: cs)).
Proof.
  intros H0 H1. cbn [decode]. unfold is_cont. ztest. rewrite !shiftl_6. code_point_eq.
Qed.

Lemma decode_3 (b0 b1 b2 : Z) (rest : list Z) :
  0xE0 <= b0 < 0xF0 -> 0x80 <= b1 < 0xC0 -> 0x80 <= b2 < 0xC0 ->
  (b0 = 0xE0 -> 0xA0 <= b1) -> (b0 = 0xED -> b1 < 0xA0) ->
  decode (b0 :: b1 :: b2 :: rest) =
  (cs ← decode rest;
   Ok ((b0 - 0xE0) * 4096 + (b1 - 0x80) * 64 + (b2 - 0x80) :: cs)).
Proof.
  intros H0 H1 H2 HE0 HED. cbn [decode]. unfold is_cont. ztest.
  destruct (Z.eqb_spec b0 0xE0), (Z.eqb_spec b0 0xED); simpl; ztest;
    rewrite ?shiftl_6, ?shiftl_12; try code_point_eq; lia.
Qed.

Lemma decode_4 (b0 b1 b2 b3 : Z) (rest : list Z) :
  0xF0 <= b0 < 0xF5 -> 0x80 <= b1 < 0xC0 -> 0x80 <= b2 < 0xC0 -> 0x80 <= b3 < 0xC0 ->
  (b0 = 0xF0 -> 0x90 <= b1) -> (b0 = 0xF4 -> b1 < 0x90) ->
  decode (b0 :: b1 :: b2 :: b3 :: rest) =
  (cs ← decode rest;
   Ok ((b0 - 0xF0) * 262144 + (b1 - 0x80) * 4096 + (b2 - 0x80) * 64 + (b3 - 0x80) :: cs)).
Proof.
  intros H0 H1 H2 H3 HF0 HF4. cbn [decode]. unfold is_cont. ztest.
  destruct (Z.eqb_spec b0 0xF0), (Z.eqb_spec b0 0xF4); simpl; ztest;
    rewrite ?shiftl_6, ?shiftl_12, ?shiftl_18; try code_point_eq; lia.
Qed.

Lemma decode_encode_char (c : Z) (rest : list Z) :
  scalar c -> decode (encode_char c ++ rest) = (cs ← decode rest; Ok (c :: cs)).
Proof.
  unfold scalar. intros Hc.
  destruct (Z.ltb_spec c 0x80) as [H1|H1].
  { rewrite encode_char_1 by done. by apply decode_1. }
  destruct (Z.ltb_spec c 0x800) as [H2|H2].
  { rewrite encode_char_2 by lia. cbn [app].
    rewrite decode_2 by zlia. code_point_eq. }
  destruct (Z.ltb_spec c 0x10000) as [H3|H3].
  { rewrite encode_char_3 by lia. cbn [app].
    rewrite decode_3 by zlia. code_point_eq. }
  rewrite encode_char_4 by lia. cbn [app].
  rewrite decode_4 by zlia. code_point_eq.
Qed.

(** The first step of the decoder on a successful run: the code point
    it produces and the bytes it consumed, which encode that code point. *)
Lemma decode_cons_Ok (ch : Z) (rest : list Z) (cs : list Z) :
  decode (ch :: rest) = Ok cs ->
  exists c bs' cs', cs = c :: cs' /\ ch :: rest = encode_char c ++ bs' /\
    decode bs' = Ok cs' /\ (0 <= ch -> scalar c).
Proof.
  unfold scalar. cbn [decode]. unfold is_cont. intros H.
  repeat case_match; simplify_eq; zbool_hyps; result_inv H; simplify_eq;
    rewrite ?shiftl_6, ?shiftl_12, ?shiftl_18.
  all: eexists _, _, _; split_and!; [reflexivity| |eassumption|intros; zlia].
  all: first [ rewrite encode_char_1 by zlia | rewrite encode_char_2 by zlia
             | rewrite encode_char_3 by zlia | rewrite encode_char_4 by zlia ].
  all: cbn [app]; repeat (f_equal; try zlia).
Qed.

Lemma encode_char_length (c : Z) : (1 <= length (encode_char c))%nat.
Proof. unfold encode_char. repeat case_match; simpl; lia. Qed.

Lemma encode_cons (c : Z) (cs : list Z) : encode (c :: cs) = encode_char c ++ encode cs.
Proof. reflexivity. Qed.

Lemma decode_Ok_aux (n : nat) (bs cs : list Z) :
  (length bs <= n)%nat -> decode bs = Ok cs ->
  encode cs = bs /\ (Forall (fun b => 0 <= b) bs -> Forall scalar cs).
Proof.
  revert bs cs. induction n as [|n IH]; intros [|ch rest] cs Hlen H;
    try (simpl in Hlen; lia); try (cbn in H; simplify_eq; split; [done|constructor]).
  destruct (decode_cons_Ok ch rest cs H) as (c & bs' & cs' & -> & Hbs & Hd & Hsc).
  pose proof (encode_char_length c) as Hl.
  assert (Hlen' : (length bs' <= n)%nat).
  { apply (f_equal length) in Hbs. rewrite length_app in Hbs. simpl in *. lia. }
  destruct (IH bs' cs' Hlen' Hd) as [Henc Hscs]. split.
  - by rewrite encode_cons, Henc.
  - intros Hpos. pose proof (Forall_inv Hpos) as Hch.
    rewrite Hbs in Hpos. apply Forall_app in Hpos as [_ Hp2].
    constructor; [by apply Hsc|by apply Hscs].
Qed.

Lemma byte_val_range (b : byte) : 0 <= byte_val b < 256.
Proof.
  unfold byte_val. pose proof (Byte.to_N_bounded b). lia.
Qed.

Lemma decode_Err_aux (n : nat) (bs : list Z) (e : exn) :
  (length bs <= n)%nat -> decode bs = Err e -> e = UnicodeDecodeError.
Proof.
  revert bs. induction n as [|n IH]; intros [|ch rest] Hlen H;
    try (simpl in Hlen; lia); try (cbn in H; discriminate).
  cbn [decode] in H. unfold mbind, result_bind in H.
  repeat case_match; simplify_eq; try done; eapply IH; try eassumption; simpl in *; lia.
Qed.

Lemma decode_encode_app (cs rest : list Z) :
  Forall scalar cs -> decode (encode cs ++ rest) = (ds ← decode rest; Ok (cs ++ ds)).
Proof.
  induction 1 as [|c cs Hc _ IH].
  - simpl. by destruct (decode rest).
  - rewrite encode_cons, <- app_assoc, decode_encode_char by done. rewrite IH.
    by destruct (decode rest).
Qed.

(** ** Theorems *)

(** Decoding the encoding of scalar values gives them back. *)
Theorem decode_encode (cs : list Z) :
  Forall scalar cs -> decode (encode cs) = Ok cs.
Proof.
  intros Hcs. rewrite <- (app_nil_r (encode cs)), decode_encode_app by done.
  simpl. by rewrite app_nil_r.
Qed.

(** The decoder accepts only shortest-form encodings: what it decodes
    re-encodes to the very same bytes. *)
Theorem encode_decode (bs cs : list Z) :
  decode bs = Ok cs -> encode cs = bs.
Proof. intros H. by apply (decode_Ok_aux (length bs) bs cs). Qed.

(** [out.decode('utf-8')] yields Unicode scalar values only (no
    surrogate, nothing above [0x10FFFF]), and they encode back to
    [out]. *)
Theorem utf8_decode_Ok (out : list byte) (cs : list Z) :
  utf8_decode out = Ok cs -> Forall scalar cs /\ encode cs = map byte_val out.
Proof.
  unfold utf8_decode. intros H.
  destruct (decode_Ok_aux _ _ _ (le_n _) H) as [Henc Hsc]. split; [|done].
  apply Hsc. apply Forall_forall. intros b (x & <- & _)%list_elem_of_In%in_map_iff.
  pose proof (byte_val_range x). lia.
Qed.

(** Text made of ASCII bytes decodes to the same values. *)
Theorem decode_ascii (bs : list Z) :
  Forall (fun b => 0 <= b < 0x80) bs -> decode bs = Ok bs.
Proof.
  induction 1 as [|b bs Hb _ IH]; [done|].
  rewrite decode_1 by lia. by rewrite IH.
Qed.

(** Decoding fails on exactly the byte strings that are not the encoding
    of a sequence of scalar values. *)
Theorem decode_Err_iff (bs : list Z) :
  Forall is_byte bs ->
  (exists e, decode bs = Err e) <-> ~ exists cs, Forall scalar cs /\ encode cs = bs.
Proof.
  intros Hbs. split.
  - intros [e He] (cs & Hcs & <-).
    rewrite <- (app_nil_r (encode cs)), decode_encode_app in He by done. discriminate.
  - intros Hno. destruct (decode bs) as [cs|e] eqn:Hd; [|by eexists].
    exfalso. apply Hno. exists cs.
    destruct (decode_Ok_aux _ _ _ (le_n _) Hd) as [Henc Hsc]. split; [|done].
    apply Hsc. eapply Forall_impl; [exact Hbs|]. unfold is_byte. lia.
Qed.

(** A failing decode raises [UnicodeDecodeError]. *)
Lemma utf8_decode_Err (out : list byte) (e : exn) :
  utf8_decode out = Err e -> e = UnicodeDecodeError.
Proof. apply decode_Err_aux with (n := length (map byte_val out)). lia. Qed.

(** ** Witnesses *)

Lemma decode_encode_witness :
  decode (encode [0x24; 0xE9; 0x20AC; 0x1F600]) = Ok [0x24; 0xE9; 0x20AC; 0x1F600].
Proof. apply decode_encode. repeat constructor; unfold scalar; lia. Defined.

Lemma encode_decode_witness : encode [0x20AC] = [0xE2; 0x82; 0xAC].
Proof. apply encode_decode. vm_compute. reflexivity. Defined.

Lemma utf8_decode_Ok_witness :
  Forall scalar (lit "Bus") /\ encode (lit "Bus") = map byte_val (list_byte_of_string "Bus").
Proof. apply utf8_decode_Ok. vm_compute. reflexivity. Defined.

Lemma decode_ascii_witness : decode (lit "Bus 002") = Ok (lit "Bus 002").
Proof. apply decode_ascii. repeat constructor; lia. Defined.

End Utf8.
