(* ===== verification/Enumerator.v ===== *)
(** The device enumerator, lines 7-15 of [src/create_report.py]: the
    text printed by [lsusb] is split at ['\n'], blank lines are skipped,
    and each other line contributes its bus, device and product id to
    the three parallel lists [bus], [device] and [pid].

    [enum_state] is the three lists, [step_line] one iteration of the
    [for] loop, [enumerate_lines]/[enumerate] the loop.  The reference
    [parse_line] reads one line into a [device_handle] (the spec's
    DeviceHandle); the refinement theorem says the loop computes the
    handles of the non-blank lines, in order, or the [IndexError] of the
    first malformed one. *)

From Stdlib Require Import String.
From S2P Require Import Prelude Builtins.

#[local] Open Scope Z_scope.

Module Enumerator.

Definition colon : Z := 58.     (** [':'] *)
Definition newline : Z := 10.   (** ['\n'] *)

(** [bus = []], [device = []], [pid = []] (lines 7-9). *)
Record enum_state := EnumState {
  bus : list (list Z);
  device : list (list Z);
  pid : list (list Z);
}.

Definition enum_init : enum_state := EnumState [] [] [].

(** One iteration of the loop of lines 10-15.  A failing [xs[i]] raises
    [IndexError]; the lists appended to before the failure are then
    never read again, since nothing catches the exception. *)
Definition step_line (st : enum_state) (line : list Z) : result exn enum_state :=
  if bool_decide (str_strip line = []) then Ok st
  else
    b ← py_getitem (str_split_ws line) 1;
    d ← py_getitem (str_split_ws line) 3;
    f ← py_getitem (str_split_ws line) 5;
    p ← py_getitem (str_split_char colon f) 1;
    Ok (EnumState (bus st ++ [b])
                  (device st ++ [str_strip_char colon d])
                  (pid st ++ [p])).

Fixpoint enumerate_lines (st : enum_state) (lines : list (list Z)) : result exn enum_state :=
  match lines with
  | [] => Ok st
  | line :: rest => st' ← step_line st line; enumerate_lines st' rest
  end.

(** Lines 7-15, given the decoded output [out] of [lsusb]. *)
Definition enumerate (out : list Z) : result exn enum_state :=
  enumerate_lines enum_init (str_split_char newline out).

(** ** Reference: one line read into a handle *)

Record device_handle := DeviceHandle {
  h_bus : list Z;
  h_device : list Z;
  h_pid : list Z;
}.

Definition parse_line (line : list Z) : result exn device_handle :=
  b ← py_getitem (str_split_ws line) 1;
  d ← py_getitem (str_split_ws line) 3;
  f ← py_getitem (str_split_ws line) 5;
  p ← py_getitem (str_split_char colon f) 1;
  Ok (DeviceHandle b (str_strip_char colon d) p).

Definition is_blank (line : list Z) : bool := bool_decide (str_strip line = []).

Fixpoint parse_handles (lines : list (list Z)) : result exn (list device_handle) :=
  match lines with
  | [] => Ok []
  | line :: rest =>
      if is_blank line then parse_handles rest
      else h ← parse_line line; hs ← parse_handles rest; Ok (h :: hs)
  end.

(** The parallel lists holding a list of handles. *)
Definition state_of (hs : list device_handle) : enum_state :=
  EnumState (map h_bus hs) (map h_device hs) (map h_pid hs).

Definition append_handles (st : enum_state) (hs : list device_handle) : enum_state :=
  EnumState (bus st ++ map h_bus hs) (device st ++ map h_device hs) (pid st ++ map h_pid hs).


(** The three lists have one entry per enumerated device. *)
Definition enum_inv (st : enum_state) : Prop :=
  length (bus st) = length (device st) /\ length (device st) = length (pid st).

(** A non-blank line is well formed when it has a sixth field and that
    field contains a colon. *)
Definition well_formed (line : list Z) : bool :=
  match str_split_ws line !! 5%nat with
  | Some f => bool_decide (1 < length (str_split_char colon f))%nat
  | None => false
  end.

(** A line the loop accepts: blank, or well formed. *)
Definition line_ok (line : list Z) : bool := is_blank line || well_formed line.

Definition nonblank_lines (lines : list (list Z)) : list (list Z) :=
  filter (fun l => is_blank l = false) lines.

(** A listing with two devices and a whitespace-only line between
    them, for concrete runs. *)
Definition sample_listing : list Z :=
  str_join [newline]
    [lit "Bus 002 Device 004: ID 413c:301a Dell Computer Corp. Dell MS116 Optical Mouse";
     lit "   ";
     lit "Bus 001 Device 003: ID 413c:2113 Dell Computer Corp. KB216 Wired Keyboard";
     []].

Definition sample_state : enum_state :=
  EnumState [lit "002"; lit "001"] [lit "004"; lit "003"] [lit "301a"; lit "2113"].

(** ** Lemmas *)

Lemma result_bind_Ok_inv {A B} (r : result exn A) (k : A -> result exn B) (b : B) :
  (r ≫= k) = Ok b -> exists a, r = Ok a /\ k a = Ok b.
Proof. apply result_bind_eq_Ok. Qed.

Lemma step_line_spec (st : enum_state) (line : list Z) :
  step_line st line =
  if is_blank line then Ok st
  else h ← parse_line line; Ok (append_handles st [h]).
Proof.
  unfold step_line, parse_line, is_blank. case_bool_decide; [done|].
  result_cases.
Qed.

Lemma append_handles_nil (st : enum_state) : append_handles st [] = st.
Proof. destruct st; unfold append_handles; simpl. by rewrite !app_nil_r. Qed.

Lemma append_handles_app (st : enum_state) (hs1 hs2 : list device_handle) :
  append_handles (append_handles st hs1) hs2 = append_handles st (hs1 ++ hs2).
Proof. unfold append_handles; simpl. by rewrite !map_app, !app_assoc. Qed.

#[export] Hint Rewrite append_handles_nil append_handles_app : report.


Lemma enumerate_lines_spec (st : enum_state) (lines : list (list Z)) :
  enumerate_lines st lines =
  hs ← parse_handles lines; Ok (append_handles st hs).
Proof.
  revert st. induction lines as [|line rest IH]; intros st; simpl.
  - by rewrite append_handles_nil.
  - rewrite step_line_spec. destruct (is_blank line); [apply IH|].
    destruct (parse_line line) as [h|e]; [simpl|done].
    rewrite IH. destruct (parse_handles rest); simpl; [|done].
    by rewrite append_handles_app.
Qed.

Lemma state_of_append (hs : list device_handle) :
  append_handles enum_init hs = state_of hs.
Proof. reflexivity. Qed.

Lemma lookup_some_below {A} (l : list A) (i j : nat) (x : A) :
  l !! j = Some x -> (i <= j)%nat -> is_Some (l !! i).
Proof.
  intros Hj Hij. apply lookup_lt_is_Some_2.
  apply lookup_lt_Some in Hj. lia.
Qed.

Lemma parse_line_Ok (line : list Z) (h : device_handle) :
  parse_line line = Ok h <->
  str_split_ws line !! 1%nat = Some (h_bus h) /\ 
  (exists d, str_split_ws line !! 3%nat = Some d /\ h_device h = str_strip_char colon d) /\ 
  (exists f, str_split_ws line !! 5%nat = Some f /\ 
             str_split_char colon f !! 1%nat = Some (h_pid h)).
Proof.
  unfold parse_line, py_getitem. destruct h as [b d p]; simpl.
  split.
  - intros H. result_cases. naive_solver.
  - intros (Hb & (d' & Hd & ->) & (f & Hf & Hp)).
    unfold mbind, result_bind. rewrite Hb, Hd, Hf. simpl. by rewrite Hp.
Qed.

Lemma parse_line_is_ok (line : list Z) :
  is_ok (parse_line line) = well_formed line.
Proof.
  unfold parse_line, well_formed, py_getitem.
  destruct (str_split_ws line !! 5%nat) as [f|] eqn:H5.
  - destruct (lookup_some_below _ 1 5 f H5 ltac:(lia)) as [b ->].
    destruct (lookup_some_below _ 3 5 f H5 ltac:(lia)) as [d ->]. simpl.
    destruct (str_split_char colon f !! 1%nat) eqn:Hp; simpl;
      case_bool_decide as Hlen; try done.
    + apply lookup_lt_Some in Hp. lia.
    + apply lookup_ge_None_1 in Hp. lia.
  - destruct (str_split_ws line !! 1%nat), (str_split_ws line !! 3%nat); done.
Qed.

Lemma parse_line_Err (line : list Z) (e : exn) :
  parse_line line = Err e -> e = IndexError.
Proof. unfold parse_line, py_getitem. intros H. result_cases. Qed.

Lemma parse_handles_Err (lines : list (list Z)) (e : exn) :
  parse_handles lines = Err e <->
  e = IndexError /\ Exists (fun l => is_blank l = false /\ well_formed l = false) lines.
Proof.
  induction lines as [|line rest IH]; simpl.
  - split; [done|]. intros [_ H]. inversion H.
  - rewrite Exists_cons. destruct (is_blank line) eqn:Hb.
    + rewrite IH. naive_solver.
    + rewrite <- parse_line_is_ok. destruct (parse_line line) as [h|e'] eqn:Hp; simpl.
      * destruct (parse_handles rest) as [hs|e'] eqn:Hr; simpl.
        -- split; [done|]. intros [-> [[_ ?]|Hex]]; [done|].
           pose proof (proj2 IH (conj eq_refl Hex)). discriminate.
        -- rewrite IH. naive_solver.
      * apply parse_line_Err in Hp as ->. naive_solver.
Qed.

Lemma parse_handles_Ok (lines : list (list Z)) (hs : list device_handle) :
  parse_handles lines = Ok hs ->
  Forall2 (fun l h => parse_line l = Ok h) (nonblank_lines lines) hs.
Proof.
  unfold nonblank_lines.
  revert hs. induction lines as [|line rest IH]; intros hs H; simpl in H.
  - simplify_eq. constructor.
  - destruct (is_blank line) eqn:Hb.
    + rewrite filter_cons_False by congruence. by apply IH.
    + rewrite filter_cons_True by done. result_inv H. result_inv H.
      simplify_eq. constructor; auto.
Qed.

Lemma forallb_line_ok (lines : list (list Z)) :
  forallb line_ok lines = true ->
  Forall (fun l => is_blank l = false -> well_formed l = true) lines.
Proof.
  intros H. apply Forall_forall. intros l Hl%list_elem_of_In Hb.
  rewrite forallb_forall in H. specialize (H l Hl). unfold line_ok in H.
  rewrite Hb in H. done.
Qed.

Lemma existsb_line_ok (lines : list (list Z)) :
  Exists (fun l => is_blank l = false /\ well_formed l = false) lines <->
  existsb (fun l => negb (line_ok l)) lines = true.
Proof.
  rewrite Exists_exists, existsb_exists. unfold line_ok.
  split; intros (l & Hin & H); exists l; split; try by apply list_elem_of_In.
  - destruct H as [-> ->]. done.
  - by destruct (is_blank l), (well_formed l).
Qed.

(** ** Theorems *)

(** The loop of lines 10-15 computes the handles of the non-blank lines
    (in the order of the lines) and stores them in the parallel lists, or
    fails with the exception of the first line that does not parse. *)
Theorem enumerate_refines (out : list Z) :
  enumerate out =
  hs ← parse_handles (str_split_char newline out); Ok (state_of hs).
Proof. unfold enumerate. by rewrite enumerate_lines_spec. Qed.

(** Every iteration of the loop keeps the three lists of equal length. *)
Theorem step_line_inv (st st' : enum_state) (line : list Z) :
  enum_inv st -> step_line st line = Ok st' -> enum_inv st'.
Proof.
  rewrite step_line_spec. unfold enum_inv. intros [H1 H2] Hs.
  destruct (is_blank line); [by simplify_eq|].
  result_cases. simpl. rewrite !length_app. simpl. lia.
Qed.

Lemma enumerate_lines_inv (st st' : enum_state) (lines : list (list Z)) :
  enum_inv st -> enumerate_lines st lines = Ok st' -> enum_inv st'.
Proof.
  revert st. induction lines as [|line rest IH]; intros st Hinv Hrun; simpl in Hrun.
  - by simplify_eq.
  - result_inv Hrun. eapply IH; [eapply step_line_inv|]; eauto.
Qed.

(** C9: After enumeration [bus], [device] and [pid] have the same length,
    so the loop of line 18 reads [device[i]] and [pid[i]] in range. *)
Theorem enumerate_inv (out : list Z) (st : enum_state) :
  enumerate out = Ok st -> enum_inv st.
Proof. apply enumerate_lines_inv. by split. Qed.

Lemma lines_of_Ok (out : list Z) (st : enum_state) :
  enumerate out = Ok st ->
  exists hs, st = state_of hs /\
    Forall2 (fun l h => parse_line l = Ok h)
            (nonblank_lines (str_split_char newline out)) hs.
Proof.
  unfold enumerate. rewrite enumerate_lines_spec. intros H. result_inv H. simplify_eq.
  eexists; split; [done|]. by apply parse_handles_Ok.
Qed.

Lemma parse_handles_app_blank (ls1 ls2 : list (list Z)) (b : list Z) :
  is_blank b = true ->
  parse_handles (ls1 ++ b :: ls2) = parse_handles (ls1 ++ ls2).
Proof.
  intros Hb. induction ls1 as [|l ls1 IH]; simpl; [by rewrite Hb|].
  by rewrite IH.
Qed.

(** The example of the spec: the line
    [Bus 002 Device 004: ID 413c:301a Dell ...] yields bus ["002"],
    device ["004"] and product id ["301a"]. *)
Example enumerate_spec_example :
  enumerate (lit "Bus 002 Device 004: ID 413c:301a Dell Computer Corp.
")
  = Ok (EnumState [lit "002"] [lit "004"] [lit "301a"]).
Proof. vm_compute. reflexivity. Qed.

(** The device field loses every leading and trailing colon, not only
    the trailing one, and the product id is the text between the first
    and the second colon of field 6. *)
Example enumerate_colons :
  enumerate (lit "Bus 002 Device :004:: ID 413c:301a:ff Dell")
  = Ok (EnumState [lit "002"] [lit "004"] [lit "301a"]).
Proof. vm_compute. reflexivity. Qed.

(** C4: Each enumerated device [k] comes from the [k]-th non-blank line:
    its bus is field 2, its device field 4 without surrounding colons,
    its product id the text after the first colon of field 6; and there
    is one device per non-blank line. *)
Theorem enumerate_fields (out : list Z) (st : enum_state) :
  enumerate out = Ok st ->
  length (bus st) = length (nonblank_lines (str_split_char newline out)) /\
  forall k line, nonblank_lines (str_split_char newline out) !! k = Some line ->
    bus st !! k = str_split_ws line !! 1%nat /\
    device st !! k = str_strip_char colon <$> str_split_ws line !! 3%nat /\
    pid st !! k = (str_split_ws line !! 5%nat) ≫= (fun f => str_split_char colon f !! 1%nat).
Proof.
  intros (hs & -> & Hall)%lines_of_Ok. simpl. split.
  - rewrite length_map. symmetry. by eapply Forall2_length.
  - intros k line Hk.
    destruct (Forall2_lookup_l _ _ _ _ _ Hall Hk) as (h & Hh & Hp).
    apply parse_line_Ok in Hp as (Hb & (d & Hd & Hdev) & (f & Hf & Hpid)).
    rewrite !list_lookup_fmap, Hh, Hb, Hd, Hf. simpl. by rewrite Hdev, Hpid.
Qed.

(** C10: If every non-blank line has a sixth field containing a colon, the
    enumeration succeeds with one device per non-blank line. *)
Theorem enumerate_well_formed (out : list Z) :
  forallb line_ok (str_split_char newline out) = true ->
  exists st, enumerate out = Ok st /\
    length (bus st) = length (nonblank_lines (str_split_char newline out)).
Proof.
  intros Hwf%forallb_line_ok. unfold enumerate. rewrite enumerate_lines_spec.
  destruct (parse_handles (str_split_char newline out)) as [hs|e] eqn:Hp.
  - eexists; split; [done|]. simpl. rewrite length_map.
    symmetry. by eapply Forall2_length, parse_handles_Ok.
  - apply parse_handles_Err in Hp as [_ Hex].
    apply Exists_exists in Hex as (l & Hin & Hb & Hw).
    rewrite Forall_forall in Hwf. specialize (Hwf l Hin Hb). congruence.
Qed.

(** C5: The enumeration fails exactly when some non-blank line lacks a
    sixth field or a colon in it, and the failure is an [IndexError]. *)
Theorem enumerate_error (out : list Z) (e : exn) :
  enumerate out = Err e <->
  e = IndexError /\ existsb (fun l => negb (line_ok l)) (str_split_char newline out) = true.
Proof.
  unfold enumerate. rewrite enumerate_lines_spec, <- existsb_line_ok, <- parse_handles_Err.
  destruct (parse_handles _); simpl; split; congruence.
Qed.

(** C11: A blank (empty or whitespace-only) line anywhere in the text changes
    nothing: it contributes no device and shifts no index. *)
Theorem enumerate_lines_blank (st : enum_state) (ls1 ls2 : list (list Z)) (b : list Z) :
  forallb is_space b = true ->
  enumerate_lines st (ls1 ++ b :: ls2) = enumerate_lines st (ls1 ++ ls2).
Proof.
  intros Hb. rewrite !enumerate_lines_spec, parse_handles_app_blank; [done|].
  unfold is_blank. apply bool_decide_eq_true, strip_by_nil_iff, Forall_forall.
  intros c Hc%list_elem_of_In. by apply (proj1 (forallb_forall _ _) Hb).
Qed.

(** ** Witnesses *)

Lemma enumerate_fields_witness :
  length (bus sample_state) = length (nonblank_lines (str_split_char newline sample_listing)) /\
  forall k line, nonblank_lines (str_split_char newline sample_listing) !! k = Some line ->
    bus sample_state !! k = str_split_ws line !! 1%nat /\
    device sample_state !! k = str_strip_char colon <$> str_split_ws line !! 3%nat /\
    pid sample_state !! k =
      (str_split_ws line !! 5%nat) ≫= (fun f => str_split_char colon f !! 1%nat).
Proof. apply (enumerate_fields sample_listing sample_state). vm_compute. reflexivity. Defined.

Lemma enumerate_inv_witness : enum_inv sample_state.
Proof. apply (enumerate_inv sample_listing). vm_compute. reflexivity. Defined.

Lemma enumerate_well_formed_witness :
  exists st, enumerate sample_listing = Ok st /\
    length (bus st) = length (nonblank_lines (str_split_char newline sample_listing)).
Proof. apply enumerate_well_formed. vm_compute. reflexivity. Defined.

Lemma enumerate_lines_blank_witness :
  enumerate_lines enum_init ([lit "Bus 002 Device 004: ID 413c:301a"] ++ lit " 	 " :: [])
  = enumerate_lines enum_init ([lit "Bus 002 Device 004: ID 413c:301a"] ++ []).
Proof. apply enumerate_lines_blank. vm_compute. reflexivity. Defined.

End Enumerator.
