(* ===== verification/Runtime.v ===== *)
(** The effects [src/create_report.py] performs, as explicit state
    passing: the files of the working directory, what the script prints,
    the child processes it starts.  A [PyM] computation maps a [world]
    to a result and the next world; an exception ([Err]) keeps the
    effects done before it, since the script never catches one.

    The external programs ([lsusb], [umockdev-record], [umockdev-run])
    and the file store are not part of the repository: they are the
    [Externals] interface, a function from an argument vector and the
    files to an exit status, the bytes written on standard output and
    the files afterwards, and the outcome of each write. *)

From Stdlib Require Import String Strings.Byte.
From S2P Require Import Prelude Builtins.

#[local] Open Scope Z_scope.

(** How the child's standard output is connected: [stdout=PIPE] with
    [communicate()] (line 25), or inherited by [subprocess.call]
    (lines 35, 42). *)
Inductive stdout_mode := Captured | Inherited.

Inductive event :=
| EvPrint (text : list Z)                        (** [print(text)] wrote [text] and ['\n'] *)
| EvSpawn (argv : list (list Z)) (m : stdout_mode) (** a child process ran to completion *)
| EvChildOutput (out : list byte)                (** inherited output of that child *)
| EvWrite (name : list Z) (data : list byte).    (** [open(name,'wb').write(data)] *)

Record world := World {
  files : gmap (list Z) (list byte);   (** the working directory *)
  events : list event;                 (** observable events, oldest first *)
}.

(** What the operating system does with [open(name, 'wb')] followed by
    [write(data)]: the file is created or truncated and receives all of
    [data]; or [open] fails and nothing changes; or the write fails
    (disk full, quota) after the system kept the first [kept] bytes. *)
Inductive write_outcome := Written | OpenFailed | WriteFailed (kept : nat).

Class Externals := {
  run_program : list (list Z) -> gmap (list Z) (list byte) ->
                option (Z * list byte * gmap (list Z) (list byte));
  store : list Z -> list byte -> gmap (list Z) (list byte) -> write_outcome
}.
(** [run_program]: [None] when the program cannot be launched.
    [store name data fs]: the outcome of writing [data] to [name]. *)

Definition PyM (A : Type) : Type := world -> result exn A * world.

#[export] Instance pym_ret : MRet PyM := fun _ a w => (Ok a, w).
#[export] Instance pym_bind : MBind PyM :=
  fun _ _ k m w => match m w with
                   | (Ok a, w') => k a w'
                   | (Err e, w') => (Err e, w')
                   end.

(** Raise the exception of a fallible pure computation. *)
Definition lift {A} (r : result exn A) : PyM A := fun w => (r, w).

Definition emit (e : event) (w : world) : world :=
  World (files w) (events w ++ [e]).

Section Primitives.
Context `{Externals}.

(** [print(text)]. *)
Definition py_print (text : list Z) : PyM unit :=
  fun w => (Ok tt, emit (EvPrint (text ++ [10])) w).

(** [subprocess.Popen(argv, stdout=subprocess.PIPE).communicate()[0]]:
    the exit status is never read. *)
Definition popen_communicate (argv : list (list Z)) : PyM (list byte) :=
  fun w => match run_program argv (files w) with
           | None => (Err FileNotFoundError, w)
           | Some (_, out, fs') =>
               (Ok out, World fs' (events w ++ [EvSpawn argv Captured]))
           end.

(** [subprocess.call(argv)]: returns the exit status, which the script
    drops. *)
Definition subprocess_call (argv : list (list Z)) : PyM Z :=
  fun w => match run_program argv (files w) with
           | None => (Err FileNotFoundError, w)
           | Some (code, out, fs') =>
               (Ok code, World fs' (events w ++ [EvSpawn argv Inherited; EvChildOutput out]))
           end.

(** [with open(name, 'wb') as wfd: wfd.write(data)]: the file is
    truncated, so its content afterwards is [data] alone.  A failure of
    [open] or of the write (or of the flush when [with] closes the
    file) raises [OSError]; after a failed write the file holds what the
    system kept. *)
Definition write_file (name : list Z) (data : list byte) : PyM unit :=
  fun w => match store name data (files w) with
           | Written =>
               (Ok tt, World (<[name := data]> (files w)) (events w ++ [EvWrite name data]))
           | OpenFailed => (Err OSError, w)
           | WriteFailed k =>
               (Err OSError, World (<[name := take k data]> (files w))
                               (events w ++ [EvWrite name (take k data)]))
           end.

End Primitives.

(** [for x in xs: body(x)]. *)
Fixpoint for_each {A} (xs : list A) (body : A -> PyM unit) : PyM unit :=
  match xs with
  | [] => mret tt
  | x :: xs' => body x ;; for_each xs' body
  end.

(** ** What the recording program promises

    [umockdev-record --ioctl=DEV=FILE cmd...] runs [cmd] and writes the
    ioctl trace of [DEV] to [FILE]; it changes no other file.  [DEV] is
    read up to the first ['='], so the promise holds for a device path
    without ['=']. *)
Class UmockdevContract `{Externals} := {
  record_ioctl_frame : forall dev log args fs code out fs',
    Forall (fun c => (c =? 61) = false) dev ->
    run_program (lit "umockdev-record" :: (lit "--ioctl=" ++ dev ++ [61] ++ log) :: args) fs
      = Some (code, out, fs') ->
    forall name, name <> log -> fs' !! name = fs !! name;
  record_ioctl_writes_log : forall dev log args fs code out fs',
    Forall (fun c => (c =? 61) = false) dev ->
    run_program (lit "umockdev-record" :: (lit "--ioctl=" ++ dev ++ [61] ++ log) :: args) fs
      = Some (code, out, fs') ->
    is_Some (fs' !! log);
}.

(** The programs the script starts remove no file of the working
    directory. *)
Class KeepsFiles `{Externals} := {
  keeps_files : forall argv fs code out fs' name,
    run_program argv fs = Some (code, out, fs') -> is_Some (fs !! name) -> is_Some (fs' !! name)
}.

(** A system where every program can be launched and every write
    succeeds. *)
Definition reliable `{Externals} : Prop :=
  (forall argv fs, is_Some (run_program argv fs)) /\
  (forall name data fs, store name data fs = Written).

(** ** Lemmas on the monad *)

Lemma pym_bind_Ok {A B} (m : PyM A) (k : A -> PyM B) (w w' : world) (a : A) :
  m w = (Ok a, w') -> (m ≫= k) w = k a w'.
Proof. intros Hm. unfold mbind, pym_bind. by rewrite Hm. Qed.

Lemma pym_bind_Err {A B} (m : PyM A) (k : A -> PyM B) (w w' : world) (e : exn) :
  m w = (Err e, w') -> (m ≫= k) w = (Err e, w').
Proof. intros Hm. unfold mbind, pym_bind. by rewrite Hm. Qed.

Lemma lift_Ok {A B} (a : A) (k : A -> PyM B) (w : world) :
  (lift (Ok a) ≫= k) w = k a w.
Proof. reflexivity. Qed.

Lemma lift_Err {A B} (e : exn) (k : A -> PyM B) (w : world) :
  (lift (Err e) ≫= k) w = (Err e, w).
Proof. reflexivity. Qed.

#[export] Hint Rewrite @lift_Ok @lift_Err : report.

(** A computation only appends to the event log. *)
Definition appends {A} (m : PyM A) : Prop :=
  forall w, exists l, events (snd (m w)) = events w ++ l.

Lemma appends_bind {A B} (m : PyM A) (k : A -> PyM B) :
  appends m -> (forall a, appends (k a)) -> appends (m ≫= k).
Proof.
  intros Hm Hk w. unfold mbind, pym_bind.
  destruct (Hm w) as [l1 H1]. destruct (m w) as [[a|e] w1] eqn:E; simpl in *.
  - destruct (Hk a w1) as [l2 H2]. exists (l1 ++ l2). by rewrite H2, H1, app_assoc.
  - by exists l1.
Qed.

Lemma appends_ret {A} (a : A) : appends (mret a).
Proof. intros w. exists []. by rewrite app_nil_r. Qed.

Lemma appends_lift {A} (r : result exn A) : appends (lift r).
Proof. intros w. exists []. by rewrite app_nil_r. Qed.

Lemma appends_for_each {A} (xs : list A) (body : A -> PyM unit) :
  (forall x, appends (body x)) -> appends (for_each xs body).
Proof.
  intros Hb. induction xs; simpl; [apply appends_ret|].
  apply appends_bind; auto.
Qed.

Section PrimitiveLemmas.
Context `{Externals}.

Lemma appends_py_print (t : list Z) : appends (py_print t).
Proof. intros w. by eexists. Qed.

Lemma appends_popen (argv : list (list Z)) : appends (popen_communicate argv).
Proof.
  intros w. unfold popen_communicate.
  destruct (run_program argv (files w)) as [[[? ?] ?]|]; simpl; [by eexists|].
  exists []. by rewrite app_nil_r.
Qed.

Lemma appends_call (argv : list (list Z)) : appends (subprocess_call argv).
Proof.
  intros w. unfold subprocess_call.
  destruct (run_program argv (files w)) as [[[? ?] ?]|]; simpl; [by eexists|].
  exists []. by rewrite app_nil_r.
Qed.

Lemma appends_write (n : list Z) (d : list byte) : appends (write_file n d).
Proof.
  intros w. unfold write_file.
  destruct (store n d (files w)); simpl; [by eexists| |by eexists].
  exists []. by rewrite app_nil_r.
Qed.

End PrimitiveLemmas.

#[export] Hint Resolve appends_bind appends_ret appends_lift appends_for_each
  appends_py_print appends_popen appends_call appends_write : report.

(** ** A simulated system, for concrete runs

    [lsusb] prints one Dell device, [umockdev-record DEV] prints a short
    descriptor, [umockdev-record --ioctl=DEV=FILE ...] writes a trace to
    [FILE] (splitting at the first ['='] after the option name, as the
    real program does), [umockdev-run] exits with [status], and any other
    program exits with 127.  [no_programs] is a system where nothing can
    be launched. *)
Definition sim_lsusb : list byte :=
  list_byte_of_string "Bus 002 Device 004: ID 413c:301a Dell Computer Corp. Dell Keyboard
".
Definition sim_descriptor : list byte := list_byte_of_string "P: /devices/usb2/2-4
".
Definition sim_trace : list byte := list_byte_of_string "@DEV /dev/bus/usb/002/004
".

(** What [./hidreport] prints while it runs under either umockdev tool. *)
Definition sim_probe_output : list byte := list_byte_of_string "HID report: 301a
".

Definition sim_run (status : Z) (argv : list (list Z)) (fs : gmap (list Z) (list byte)) :
    option (Z * list byte * gmap (list Z) (list byte)) :=
  match argv with
  | prog :: arg :: _ =>
      if bool_decide (prog = lit "umockdev-record") then
        if bool_decide (take 8 arg = lit "--ioctl=") then
          match str_split_char 61 (drop 8 arg) with
          | _ :: pieces => Some (0, sim_probe_output, <[str_join [61] pieces := sim_trace]> fs)
          | [] => Some (127, [], fs)
          end
        else Some (0, sim_descriptor, fs)
      else if bool_decide (prog = lit "umockdev-run") then Some (status, sim_probe_output, fs)
      else if bool_decide (prog = lit "lsusb") then Some (0, sim_lsusb, fs)
      else Some (127, [], fs)
  | _ => Some (127, [], fs)
  end.

Definition sim_with (status : Z) : Externals :=
  {| run_program := sim_run status; store := fun _ _ _ => Written |}.

#[export] Instance sim_externals : Externals := sim_with 1.

(** The simulated programs on a full disk: every write fails before a
    byte is stored. *)
Definition full_disk : Externals :=
  {| run_program := sim_run 0; store := fun _ _ _ => WriteFailed 0 |}.

(** A system with [lsusb] but without umockdev installed. *)
Definition no_umockdev : Externals :=
  {| run_program := fun argv fs =>
       match argv with
       | prog :: _ => if bool_decide (prog = lit "lsusb") then sim_run 0 argv fs else None
       | [] => None
       end;
     store := fun _ _ _ => Written |}.

Definition no_programs : Externals :=
  {| run_program := fun _ _ => None; store := fun _ _ _ => Written |}.

Lemma sim_ioctl_target (dev log : list Z) :
  Forall (fun c => (c =? 61) = false) dev ->
  str_split_char 61 (dev ++ [61] ++ log) = dev :: str_split_char 61 log.
Proof.
  intros Hdev. rewrite !str_split_char_spec. cbn [app].
  apply split_on_app_sep; [done|apply Z.eqb_refl].
Qed.

Lemma sim_run_ioctl (status : Z) (dev log : list Z) (args : list (list Z)) fs code out fs' :
  Forall (fun c => (c =? 61) = false) dev ->
  sim_run status (lit "umockdev-record" :: (lit "--ioctl=" ++ dev ++ [61] ++ log) :: args) fs
    = Some (code, out, fs') ->
  fs' = <[log := sim_trace]> fs.
Proof.
  intros Hdev. unfold sim_run.
  rewrite bool_decide_eq_true_2 by done.
  rewrite take_app_length', drop_app_length' by done.
  rewrite bool_decide_eq_true_2 by done.
  rewrite sim_ioctl_target by done. rewrite str_split_char_spec, split_on_join.
  by intros [= <- <- <-].
Qed.

#[export] Instance sim_contract : UmockdevContract.
Proof.
  split.
  - intros dev log args fs code out fs' Hdev Hrun name Hne.
    rewrite (sim_run_ioctl _ _ _ _ _ _ _ _ Hdev Hrun). by rewrite lookup_insert_ne.
  - intros dev log args fs code out fs' Hdev Hrun.
    rewrite (sim_run_ioctl _ _ _ _ _ _ _ _ Hdev Hrun). by rewrite lookup_insert_eq.
Qed.

#[export] Instance sim_keeps_files (status : Z) : KeepsFiles (H := sim_with status).
Proof.
  split. intros argv fs code out fs' name. simpl. unfold sim_run.
  intros Hrun Hname. repeat case_match; simplify_eq; try done.
  by apply lookup_insert_is_Some'; right.
Qed.

(** In the simulated system every program can be launched and every
    write succeeds. *)
Lemma sim_reliable (status : Z) : reliable (H := sim_with status).
Proof. split; [|done]. intros argv fs. simpl. unfold sim_run. repeat case_match; eauto. Qed.
