(* ===== verification/Driver.v ===== *)
(** The recorder/replayer driver, lines 17-43 of
    [src/create_report.py]: for every index [i] of the enumerated lists,
    three external commands are echoed and run in a fixed order.

    [basename], [devname] and the three [cmd_*] builders are the strings
    the script formats; [record_device] is one iteration of the loop
    (lines 19-43) and [record_all] the loop of line 18.  The theorems
    give the exact event sequence of an iteration, the independence of
    the run from the exit statuses, the fixture the replay reads, the
    absence of [IndexError] on the enumerator's output, and what a
    refused write of the descriptor file does. *)

From Stdlib Require Import String Strings.Byte.
From S2P Require Import Prelude Builtins Enumerator Runtime.

#[local] Open Scope Z_scope.

Module Driver.
Import Enumerator.

(** ["%s.%s" % (bus[i], device[i])] (line 19). *)
Definition basename (b d : list Z) : list Z := b ++ lit "." ++ d.

(** ["/dev/bus/usb/%s/%s" % (bus[i], device[i])] (line 20). *)
Definition devname (b d : list Z) : list Z := lit "/dev/bus/usb/" ++ b ++ lit "/" ++ d.

Definition descriptor_file (bn : list Z) : list Z := bn ++ lit ".umockdev".
Definition ioctl_file (bn : list Z) : list Z := bn ++ lit ".ioctl".

(** Lines 22-23. *)
Definition cmd_record_device (dn : list Z) : list (list Z) :=
  [lit "umockdev-record"; dn].

(** Lines 31-33. *)
Definition cmd_record_ioctl (dn bn p : list Z) : list (list Z) :=
  [lit "umockdev-record"; lit "--ioctl=" ++ dn ++ lit "=" ++ ioctl_file bn;
   lit "./hidreport"; p].

(** Lines 38-40. *)
Definition cmd_replay (dn bn p : list Z) : list (list Z) :=
  [lit "umockdev-run"; lit "--device=" ++ descriptor_file bn;
   lit "--ioctl=" ++ dn ++ lit "=" ++ ioctl_file bn;
   lit "./hidreport"; p].

Definition nl : list Z := [10].   (** ["\n"] *)

(** ["Running: %s" % " ".join(cmd)] *)
Definition running (cmd : list (list Z)) : list Z :=
  lit "Running: " ++ str_join (lit " ") cmd.

Section Loop.
Context `{Externals}.

(** Lines 22-28: echo and run [umockdev-record <devname>], write what
    it printed to [<basename>.umockdev]. *)
Definition record_descriptor (dn bn : list Z) : PyM unit :=
  let cmd := cmd_record_device dn in
  py_print (running cmd);;
  out ← popen_communicate cmd;
  write_file (descriptor_file bn) out.

(** Lines 30-35, "record ioctls": [pid[i]] is read on line 33. *)
Definition record_ioctls (st : enum_state) (i : nat) (dn bn : list Z) : PyM unit :=
  p ← lift (py_getitem (pid st) i);
  let cmd := cmd_record_ioctl dn bn p in
  py_print (nl ++ running cmd);;
  _ ← subprocess_call cmd;
  mret tt.

(** Lines 37-43, "replaying ioctls": [pid[i]] is read again on line 40. *)
Definition replay_ioctls (st : enum_state) (i : nat) (dn bn : list Z) : PyM unit :=
  p ← lift (py_getitem (pid st) i);
  let cmd := cmd_replay dn bn p in
  py_print (nl ++ running cmd);;
  _ ← subprocess_call cmd;
  py_print nl.

(** One iteration of the loop, lines 19-43.  The indexing expressions are
    evaluated where the source evaluates them: [bus[i]] and [device[i]]
    on lines 19 and 20, [pid[i]] in the two later stages. *)
Definition record_device (st : enum_state) (i : nat) : PyM unit :=
  b ← lift (py_getitem (bus st) i);
  d ← lift (py_getitem (device st) i);
  let bn := basename b d in
  b' ← lift (py_getitem (bus st) i);
  d' ← lift (py_getitem (device st) i);
  let dn := devname b' d' in
  record_descriptor dn bn;;
  record_ioctls st i dn bn;;
  replay_ioctls st i dn bn.

(** [for i in range(0, len(bus)): ...] (line 18). *)
Definition record_all (st : enum_state) : PyM unit :=
  for_each (seq 0 (length (bus st))) (record_device st).

(** The events of one iteration that runs to its end. *)
Definition iteration_events (b d p : list Z) (out1 o2 o3 : list byte) : list event :=
  let bn := basename b d in
  let dn := devname b d in
  [EvPrint (running (cmd_record_device dn) ++ nl);
   EvSpawn (cmd_record_device dn) Captured;
   EvWrite (descriptor_file bn) out1;
   EvPrint ((nl ++ running (cmd_record_ioctl dn bn p)) ++ nl);
   EvSpawn (cmd_record_ioctl dn bn p) Inherited; EvChildOutput o2;
   EvPrint ((nl ++ running (cmd_replay dn bn p)) ++ nl);
   EvSpawn (cmd_replay dn bn p) Inherited; EvChildOutput o3;
   EvPrint (nl ++ nl)].

(** The argument vectors of the processes started, in order. *)
Fixpoint spawned (evs : list event) : list (list (list Z)) :=
  match evs with
  | [] => []
  | EvSpawn argv _ :: evs' => argv :: spawned evs'
  | _ :: evs' => spawned evs'
  end.

End Loop.

(** The commands of one handle, in the order of lines 22-42: the plan
    the spec states for each enumerated device. *)
Definition handle_cmds (h : device_handle) : list (list (list Z)) :=
  let dn := devname (h_bus h) (h_device h) in
  let bn := basename (h_bus h) (h_device h) in
  [cmd_record_device dn; cmd_record_ioctl dn bn (h_pid h); cmd_replay dn bn (h_pid h)].

Definition plan (hs : list device_handle) : list (list (list Z)) :=
  concat (map handle_cmds hs).

(** Two systems whose programs print and write the same things, and may
    differ in their exit statuses. *)
Definition same_but_status (E1 E2 : Externals) : Prop :=
  (forall argv fs,
    (fun '(_, o, fs') => (o, fs')) <$> run_program (Externals := E1) argv fs =
    (fun '(_, o, fs') => (o, fs')) <$> run_program (Externals := E2) argv fs) /\
  (forall name data fs, store (Externals := E1) name data fs = store (Externals := E2) name data fs).

Lemma spawned_app (l1 l2 : list event) : spawned (l1 ++ l2) = spawned l1 ++ spawned l2.
Proof. induction l1 as [|[] l1 IH]; simpl; by rewrite ?IH. Qed.

#[export] Hint Rewrite spawned_app : report.

Lemma basename_split (b d : list Z) :
  without 46 b = true -> without 46 d = true ->
  str_split_char 46 (basename b d) = [b; d].
Proof.
  intros Hb%without_Forall Hd%without_Forall. rewrite str_split_char_spec.
  apply (split_on_join_inv _ 46 [b; d]); [done|done|by repeat constructor].
Qed.

Section LoopLemmas.
Context `{Externals}.

(** Line by line: an iteration whose three commands launch. *)
Lemma record_device_run (st : enum_state) (i : nat) (b d p : list Z)
    (fs0 fs1 fs2 fs3 : gmap (list Z) (list byte)) (evs : list event)
    (c1 c2 c3 : Z) (out1 o2 o3 : list byte) :
  bus st !! i = Some b -> device st !! i = Some d -> pid st !! i = Some p ->
  run_program (cmd_record_device (devname b d)) fs0 = Some (c1, out1, fs1) ->
  store (descriptor_file (basename b d)) out1 fs1 = Written ->
  run_program (cmd_record_ioctl (devname b d) (basename b d) p)
              (<[descriptor_file (basename b d) := out1]> fs1) = Some (c2, o2, fs2) ->
  run_program (cmd_replay (devname b d) (basename b d) p) fs2 = Some (c3, o3, fs3) ->
  record_device st i (World fs0 evs) =
  (Ok tt, World fs3 (evs ++ iteration_events b d p out1 o2 o3)).
Proof.
  intros Hb Hd Hp H1 Hw H2 H3.
  unfold record_device, record_ioctls, replay_ioctls, py_getitem. rewrite Hb, Hd, Hp.
  unfold record_descriptor, record_ioctls, replay_ioctls, mbind, pym_bind, mret, pym_ret,
    lift, py_print, popen_communicate, subprocess_call,
    write_file, emit; cbn -[running nl app].
  rewrite H1; cbn -[running nl app]. rewrite Hw; cbn -[running nl app].
  rewrite H2; cbn -[running nl app].
  rewrite H3; cbn -[running nl app].
  by rewrite <- !app_assoc.
Qed.

Lemma record_device_Err (st : enum_state) (i : nat) (w w' : world) (e : exn) :
  enum_inv st -> (i < length (bus st))%nat ->
  record_device st i w = (Err e, w') -> e = FileNotFoundError \/ e = OSError.
Proof.
  intros [Hbd Hdp] Hi Hrun.
  destruct (lookup_lt_is_Some_2 (bus st) i Hi) as [b Hb].
  destruct (lookup_lt_is_Some_2 (device st) i ltac:(lia)) as [d Hd].
  destruct (lookup_lt_is_Some_2 (pid st) i ltac:(lia)) as [p Hp].
  revert Hrun. unfold record_device, record_ioctls, replay_ioctls, py_getitem. rewrite Hb, Hd, Hp.
  unfold record_descriptor, record_ioctls, replay_ioctls, mbind, pym_bind, mret, pym_ret,
    lift, py_print, popen_communicate, subprocess_call,
    write_file, emit; cbn -[running nl app].
  intros Hrun. repeat case_match; simplify_eq; auto.
Qed.

(** The first stage when [umockdev-record] cannot be launched: the echo,
    then [FileNotFoundError]. *)
Lemma record_descriptor_launch_failure (dn bn : list Z) (fs0 : gmap (list Z) (list byte))
    (evs : list event) :
  run_program (cmd_record_device dn) fs0 = None ->
  record_descriptor dn bn (World fs0 evs) =
    (Err FileNotFoundError, World fs0 (evs ++ [EvPrint (running (cmd_record_device dn) ++ nl)])).
Proof.
  intros H1. unfold record_descriptor, mbind, pym_bind, py_print, popen_communicate, emit.
  cbn -[running nl app]. by rewrite H1.
Qed.

Lemma descriptor_ne_ioctl (bn : list Z) : descriptor_file bn <> ioctl_file bn.
Proof. unfold descriptor_file, ioctl_file. intros Heq%app_inv_head. discriminate. Qed.

Definition no_eq_sign (s : list Z) : Prop := Forall (fun c => (c =? 61) = false) s.

Lemma devname_no_eq_sign (b d : list Z) :
  no_eq_sign b -> no_eq_sign d -> no_eq_sign (devname b d).
Proof.
  unfold no_eq_sign, devname. intros Hb Hd.
  repeat apply Forall_app_2; [repeat constructor|done|repeat constructor|done].
Qed.

Lemma record_device_handle (hs : list device_handle) (j : nat) (h : device_handle) (w : world) :
  reliable ->
  hs !! j = Some h ->
  exists w', record_device (state_of hs) j w = (Ok tt, w') /\
    spawned (events w') = spawned (events w) ++ handle_cmds h.
Proof.
  intros [Hl Hs] Hj. destruct w as [fs0 evs].
  destruct h as [b d p].
  destruct (Hl (cmd_record_device (devname b d)) fs0) as [[[c1 out1] fs1] H1].
  destruct (Hl (cmd_record_ioctl (devname b d) (basename b d) p)
               (<[descriptor_file (basename b d) := out1]> fs1)) as [[[c2 o2] fs2] H2].
  destruct (Hl (cmd_replay (devname b d) (basename b d) p) fs2) as [[[c3 o3] fs3] H3].
  eexists. split.
  - eapply record_device_run; [..|exact H1|apply Hs|exact H2|exact H3];
      by cbn; rewrite list_lookup_fmap, Hj.
  - simpl. by rewrite spawned_app.
Qed.

(** Close [exists k, k < 3 /\ spawned ... = ... ++ take k cmds /\ ...]
    with the given [k]. *)
Local Ltac spawned_prefix k :=
  exists k; split_and!; [lia | rewrite ?spawned_app, <- ?app_assoc; reflexivity | auto].

(** What an iteration on the lists of handles starts: the three
    commands of its handle when it ends normally, a strict prefix of them
    when it raises. *)
Lemma record_device_spawned (hs : list device_handle) (j : nat) (h : device_handle)
    (w w' : world) (r : result exn unit) :
  hs !! j = Some h -> record_device (state_of hs) j w = (r, w') ->
  match r with
  | Ok _ => spawned (events w') = spawned (events w) ++ handle_cmds h
  | Err e => exists k, (k < 3)%nat /\
      spawned (events w') = spawned (events w) ++ take k (handle_cmds h) /\
      (e = FileNotFoundError \/ e = OSError)
  end.
Proof.
  intros Hj. destruct w as [fs0 evs], h as [b d p].
  unfold record_device, record_ioctls, replay_ioctls, py_getitem. cbn [state_of bus device pid].
  rewrite !list_lookup_fmap, Hj. cbn [fmap option_fmap option_map h_bus h_device h_pid].
  unfold record_descriptor, mbind, pym_bind, mret, pym_ret,
    lift, py_print, popen_communicate, subprocess_call, write_file, emit; cbn -[running nl app].
  intros Hrun. repeat case_match; simplify_eq/=; rewrite ?spawned_app, <- ?app_assoc;
    try reflexivity;
    first [ spawned_prefix 0%nat | spawned_prefix 1%nat | spawned_prefix 2%nat ].
Qed.

Lemma for_each_record_device (hs : list device_handle) (xs : list nat) (w : world) :
  reliable ->
  Forall (fun j => j < length hs)%nat xs ->
  exists w', for_each xs (record_device (state_of hs)) w = (Ok tt, w') /\
    spawned (events w') =
    spawned (events w) ++ concat (map (fun j => default [] (handle_cmds <$> hs !! j)) xs).
Proof.
  intros Hl Hxs. revert w. induction Hxs as [|j xs Hj _ IH]; intros w.
  - exists w. split; [done|]. by rewrite app_nil_r.
  - destruct (lookup_lt_is_Some_2 hs j Hj) as [h Hh].
    destruct (record_device_handle hs j h w Hl Hh) as (w1 & Hrun1 & Hsp1).
    destruct (IH w1) as (w2 & Hrun2 & Hsp2).
    exists w2. split.
    + simpl. by rewrite (pym_bind_Ok _ _ _ _ _ Hrun1).
    + rewrite Hsp2, Hsp1. simpl. rewrite Hh. simpl. by rewrite <- app_assoc.
Qed.

Lemma map_lookup_seq {A B} (g : option A -> B) (pre hs : list A) :
  map (fun j => g ((pre ++ hs) !! j)) (seq (length pre) (length hs)) = map (g ∘ Some) hs.
Proof.
  revert pre. induction hs as [|h hs IH]; intros pre; [done|]. simpl.
  rewrite list_lookup_middle by done. f_equal.
  replace (pre ++ h :: hs) with ((pre ++ [h]) ++ hs) by by rewrite <- app_assoc.
  replace (S (length pre)) with (length (pre ++ [h])) by (rewrite length_app; simpl; lia).
  apply IH.
Qed.

End LoopLemmas.

Section FixtureLemmas.
Context `{Externals}.

(** Inversion of an iteration that ends normally: its three commands
    launched, the descriptor was written, and the events are
    [iteration_events]. *)
Lemma record_device_Ok_inv (st : enum_state) (i : nat) (fs0 : gmap (list Z) (list byte))
    (evs : list event) (w' : world) :
  record_device st i (World fs0 evs) = (Ok tt, w') ->
  exists b d p c1 out1 fs1 c2 o2 fs2 c3 o3 fs3,
    bus st !! i = Some b /\ device st !! i = Some d /\ pid st !! i = Some p /\
    run_program (cmd_record_device (devname b d)) fs0 = Some (c1, out1, fs1) /\
    store (descriptor_file (basename b d)) out1 fs1 = Written /\
    run_program (cmd_record_ioctl (devname b d) (basename b d) p)
                (<[descriptor_file (basename b d) := out1]> fs1) = Some (c2, o2, fs2) /\
    run_program (cmd_replay (devname b d) (basename b d) p) fs2 = Some (c3, o3, fs3) /\
    w' = World fs3 (evs ++ iteration_events b d p out1 o2 o3).
Proof.
  unfold record_device, record_ioctls, replay_ioctls, py_getitem, record_descriptor,
    mbind, pym_bind, mret, pym_ret, lift, py_print, popen_communicate, subprocess_call,
    write_file, emit; cbn -[running nl app].
  intros Hrun. repeat case_match; simplify_eq; cbn [files events] in *.
  do 12 eexists. split_and!; try eassumption; [done..|].
  cbn -[running nl app]. by rewrite <- !app_assoc.
Qed.

Context `{!KeepsFiles} `{!UmockdevContract}.

(** An iteration that ends normally keeps every file and leaves both
    fixture files of its device, when the device path holds no ['=']. *)
Lemma record_device_fixtures (st : enum_state) (i : nat) (b d : list Z) (w w' : world) :
  bus st !! i = Some b -> device st !! i = Some d ->
  without 61 b = true -> without 61 d = true ->
  record_device st i w = (Ok tt, w') ->
  (forall n, is_Some (files w !! n) -> is_Some (files w' !! n)) /\
  is_Some (files w' !! descriptor_file (basename b d)) /\
  is_Some (files w' !! ioctl_file (basename b d)).
Proof.
  intros Hb Hd Hb'%without_Forall Hd'%without_Forall Hrun. destruct w as [fs0 evs].
  apply record_device_Ok_inv in Hrun
    as (b1 & d1 & p & c1 & out1 & fs1 & c2 & o2 & fs2 & c3 & o3 & fs3 &
        Hb1 & Hd1 & Hp & Hr1 & Hw & Hr2 & Hr3 & ->).
  simplify_eq. simpl.
  pose proof (devname_no_eq_sign b d Hb' Hd') as Hdn.
  split_and!.
  - intros n Hn. apply (keeps_files _ _ _ _ _ _ Hr3), (keeps_files _ _ _ _ _ _ Hr2).
    apply lookup_insert_is_Some'. right. exact (keeps_files _ _ _ _ _ _ Hr1 Hn).
  - apply (keeps_files _ _ _ _ _ _ Hr3), (keeps_files _ _ _ _ _ _ Hr2).
    by rewrite lookup_insert_eq.
  - apply (keeps_files _ _ _ _ _ _ Hr3). exact (record_ioctl_writes_log _ _ _ _ _ _ _ Hdn Hr2).
Qed.

End FixtureLemmas.

(** ** Theorems *)

Section Theorems.
Context `{Externals}.

(** C3: One iteration prints the echo of [umockdev-record <devname>], runs it
    capturing its output, writes that output to
    [<bus>.<device>.umockdev], then echoes and runs the ioctl recording
    and the replay (both on [./hidreport <pid>]), and prints a blank
    line: exactly the events [iteration_events], with the files the
    three commands leave. *)
Theorem record_device_events (st : enum_state) (i : nat) (b d p : list Z)
    (fs0 fs1 fs2 fs3 : gmap (list Z) (list byte)) (evs : list event)
    (c1 c2 c3 : Z) (out1 o2 o3 : list byte) :
  bus st !! i = Some b -> device st !! i = Some d -> pid st !! i = Some p ->
  run_program (cmd_record_device (devname b d)) fs0 = Some (c1, out1, fs1) ->
  store (descriptor_file (basename b d)) out1 fs1 = Written ->
  run_program (cmd_record_ioctl (devname b d) (basename b d) p)
              (<[descriptor_file (basename b d) := out1]> fs1) = Some (c2, o2, fs2) ->
  run_program (cmd_replay (devname b d) (basename b d) p) fs2 = Some (c3, o3, fs3) ->
  record_device st i (World fs0 evs) =
    (Ok tt, World fs3 (evs ++ iteration_events b d p out1 o2 o3)) /\
  spawned (iteration_events b d p out1 o2 o3) =
    [cmd_record_device (devname b d);
     cmd_record_ioctl (devname b d) (basename b d) p;
     cmd_replay (devname b d) (basename b d) p].
Proof. intros. split; [by eapply record_device_run|done]. Qed.

(** C8: On the enumerator's lists the loop body never raises [IndexError]:
    the only exceptions it can raise are the failure to launch a program
    and the failure to write the descriptor file. *)
Theorem record_device_no_index_error (out : list Z) (st : enum_state) (i : nat)
    (w w' : world) (e : exn) :
  Enumerator.enumerate out = Ok st -> (i < length (bus st))%nat ->
  record_device st i w = (Err e, w') -> e = FileNotFoundError \/ e = OSError.
Proof.
  intros Hst. apply record_device_Err.
  apply (enumerate_lines_inv enum_init st (str_split_char newline out)); [by split|exact Hst].
Qed.

(** C13: If [umockdev-record] cannot be launched, the iteration stops with
    [FileNotFoundError] after its first echo, and no file is written. *)
Theorem record_device_launch_failure (st : enum_state) (i : nat) (b d : list Z)
    (fs0 : gmap (list Z) (list byte)) (evs : list event) :
  bus st !! i = Some b -> device st !! i = Some d ->
  run_program (cmd_record_device (devname b d)) fs0 = None ->
  record_device st i (World fs0 evs) =
    (Err FileNotFoundError,
     World fs0 (evs ++ [EvPrint (running (cmd_record_device (devname b d)) ++ nl)])).
Proof.
  intros Hb Hd H1. unfold record_device, py_getitem. rewrite Hb, Hd, !lift_Ok.
  exact (pym_bind_Err _ _ _ _ _ (record_descriptor_launch_failure _ (basename b d) _ evs H1)).
Qed.

(** C17: A refused write of the descriptor file (line 27-28) ends the
    iteration with [OSError] right after [umockdev-record <devname>]:
    the ioctl recording and the replay are never started.  If [open]
    failed the files are those the recording left; if the write failed
    the descriptor file exists and holds only the bytes the system kept,
    whatever it held before. *)
Theorem record_device_write_failure (st : enum_state) (i : nat) (b d : list Z)
    (fs0 fs1 : gmap (list Z) (list byte)) (evs : list event) (c1 : Z) (out1 : list byte)
    (o : write_outcome) :
  bus st !! i = Some b -> device st !! i = Some d ->
  run_program (cmd_record_device (devname b d)) fs0 = Some (c1, out1, fs1) ->
  store (descriptor_file (basename b d)) out1 fs1 = o -> o <> Written ->
  record_device st i (World fs0 evs) =
  (Err OSError,
   World (match o with
          | WriteFailed k => <[descriptor_file (basename b d) := take k out1]> fs1
          | _ => fs1
          end)
     (evs ++ [EvPrint (running (cmd_record_device (devname b d)) ++ nl);
              EvSpawn (cmd_record_device (devname b d)) Captured] ++
      match o with
      | WriteFailed k => [EvWrite (descriptor_file (basename b d)) (take k out1)]
      | _ => []
      end)).
Proof.
  intros Hb Hd H1 Hw Hne. unfold record_device, py_getitem. rewrite Hb, Hd.
  unfold record_descriptor, mbind, pym_bind, lift, py_print, popen_communicate,
    write_file, emit; cbn -[running nl app].
  rewrite H1; cbn -[running nl app]. rewrite Hw.
  destruct o; [done| |]; cbn -[running nl app]; by rewrite <- !app_assoc.
Qed.

(** C7: Record before replay: when [umockdev-run] starts, the descriptor
    file holds exactly the bytes [umockdev-record] printed in this same
    iteration (an earlier file of that name was overwritten, not
    appended to), and the ioctl file exists, as long as the recording
    program keeps its promise and the bus and device names hold no
    ['=']. *)
Theorem replay_reads_fresh_fixtures `{!UmockdevContract} (st : enum_state) (i : nat)
    (b d : list Z) (fs0 fs1 : gmap (list Z) (list byte)) (evs : list event)
    (c1 : Z) (out1 : list byte) (w : world) :
  without 61 b = true -> without 61 d = true ->
  run_program (cmd_record_device (devname b d)) fs0 = Some (c1, out1, fs1) ->
  (record_descriptor (devname b d) (basename b d);;
   record_ioctls st i (devname b d) (basename b d)) (World fs0 evs) = (Ok tt, w) ->
  files w !! descriptor_file (basename b d) = Some out1 /\
  is_Some (files w !! ioctl_file (basename b d)).
Proof.
  intros Hb%without_Forall Hd%without_Forall H1 Hrun.
  pose proof (devname_no_eq_sign b d Hb Hd) as Hdn.
  revert Hrun. unfold record_descriptor, record_ioctls, py_getitem, mbind, pym_bind, mret,
    pym_ret, lift, py_print, popen_communicate, subprocess_call, write_file, emit;
    cbn -[running nl app]. rewrite H1. cbn -[running nl app].
  intros Hrun. repeat case_match; simplify_eq/=.
  match goal with
  | H2 : run_program (cmd_record_ioctl _ _ _) _ = Some _ |- _ =>
      split;
      [ erewrite (record_ioctl_frame _ _ _ _ _ _ _ Hdn H2) by apply descriptor_ne_ioctl;
        apply lookup_insert_eq
      | exact (record_ioctl_writes_log _ _ _ _ _ _ _ Hdn H2) ]
  end.
Qed.

(** Refinement of the plan: when every program launches, the loop of
    line 18 over the lists of handles [hs] runs to its end and starts
    exactly the commands of [plan hs]: for each handle in order,
    [umockdev-record], [umockdev-record --ioctl], [umockdev-run]. *)
Theorem record_all_plan (hs : list device_handle) (w : world) :
  reliable ->
  exists w', record_all (state_of hs) w = (Ok tt, w') /\
    spawned (events w') = spawned (events w) ++ plan hs.
Proof.
  intros Hl. unfold record_all. simpl. rewrite length_map.
  destruct (for_each_record_device hs (seq 0 (length hs)) w Hl) as (w' & Hrun & Hsp).
  { apply Forall_forall. intros j Hj%list_elem_of_In%in_seq. lia. }
  exists w'. split; [done|]. rewrite Hsp. f_equal. unfold plan. f_equal.
  exact (map_lookup_seq (fun o => default [] (handle_cmds <$> o)) [] hs).
Qed.

End Theorems.

Lemma plan_length (hs : list device_handle) : length (plan hs) = (3 * length hs)%nat.
Proof. unfold plan. induction hs as [|h hs IH]; simpl; [done|]. rewrite IH. lia. Qed.

Lemma popen_status_blind (E1 E2 : Externals) (argv : list (list Z)) (w : world) :
  same_but_status E1 E2 ->
  popen_communicate (H := E1) argv w = popen_communicate (H := E2) argv w.
Proof.
  intros [Hsame _]. unfold popen_communicate. pose proof (Hsame argv (files w)) as Hs.
  destruct (run_program (Externals := E1) argv (files w)) as [[[? ?] ?]|],
           (run_program (Externals := E2) argv (files w)) as [[[? ?] ?]|];
    by simplify_eq/=.
Qed.

(** C14: Fixture names determine the device: for bus and device tokens
    without a ['.'] (as [lsusb] prints them), [<bus>.<device>] can be
    split back into the two tokens, so two devices never share fixture
    files. *)
Theorem basename_inj (b d b' d' : list Z) :
  without 46 b = true -> without 46 d = true ->
  without 46 b' = true -> without 46 d' = true ->
  basename b d = basename b' d' -> b = b' /\ d = d'.
Proof.
  intros Hb Hd Hb' Hd' Heq.
  pose proof (basename_split b d Hb Hd) as H1.
  rewrite Heq, basename_split in H1 by done. by simplify_eq.
Qed.

(** Without that condition the script does not keep devices apart: bus
    ["1.2"] with device ["3"] and bus ["1"] with device ["2.3"] write
    the same fixture files. *)
Theorem basename_collision :
  basename (lit "1.2") (lit "3") = basename (lit "1") (lit "2.3") /\
  lit "1.2" <> lit "1".
Proof. split; [reflexivity|discriminate]. Qed.

(** Exit statuses are ignored: two systems that differ only in the exit
    statuses of their programs give the same run of an iteration. *)
Lemma record_device_status_blind (E1 E2 : Externals) (st : enum_state) (i : nat) (w : world) :
  same_but_status E1 E2 ->
  record_device (H := E1) st i w = record_device (H := E2) st i w.
Proof.
  intros [Hsame Hstore]. destruct w as [fs0 evs].
  unfold record_device, record_ioctls, replay_ioctls, py_getitem.
  destruct (bus st !! i), (device st !! i); [|done..].
  unfold record_descriptor, record_ioctls, replay_ioctls, mbind, pym_bind, mret, pym_ret,
    lift, py_print, popen_communicate, subprocess_call,
    write_file, emit; cbn -[running nl app].
  repeat match goal with
  | |- context [run_program (Externals := E1) ?a ?f] =>
      pose proof (Hsame a f) as Hs;
      destruct (run_program (Externals := E1) a f) as [[[? ?] ?]|],
               (run_program (Externals := E2) a f) as [[[? ?] ?]|];
      simplify_eq/=; try done
  | |- context [store (Externals := E1) ?n ?d ?f] =>
      rewrite (Hstore n d f); destruct (store (Externals := E2) n d f); cbn -[running nl app]; try done
  | |- context [pid st !! i] => destruct (pid st !! i); cbn -[running nl app]; try done
  end.
Qed.

(** The whole loop of line 18 does not depend on exit statuses. *)
Theorem record_all_status_blind (E1 E2 : Externals) (st : enum_state) (w : world) :
  same_but_status E1 E2 ->
  record_all (H := E1) st w = record_all (H := E2) st w.
Proof.
  intros Hsame. unfold record_all. revert w.
  induction (seq 0 (length (bus st))) as [|j xs IH]; intros w; [done|]. simpl.
  unfold mbind, pym_bind.
  rewrite (record_device_status_blind E1 E2 st j w Hsame).
  destruct (record_device st j w) as [[]]; [apply IH|done].
Qed.

(** ** Witnesses *)

Definition sample_fixtures : gmap (list Z) (list byte) :=
  <[ioctl_file (lit "002.004") := sim_trace]>
    (<[descriptor_file (lit "002.004") := sim_descriptor]> ∅).

Lemma record_device_events_witness :
  record_device (H := sim_externals) sample_state 0 (World ∅ []) =
    (Ok tt, World sample_fixtures
              ([] ++ iteration_events (lit "002") (lit "004") (lit "301a") sim_descriptor sim_probe_output sim_probe_output)) /\
  spawned (iteration_events (lit "002") (lit "004") (lit "301a") sim_descriptor sim_probe_output sim_probe_output) =
    [cmd_record_device (devname (lit "002") (lit "004"));
     cmd_record_ioctl (devname (lit "002") (lit "004")) (basename (lit "002") (lit "004")) (lit "301a");
     cmd_replay (devname (lit "002") (lit "004")) (basename (lit "002") (lit "004")) (lit "301a")].
Proof.
  apply (@record_device_events sim_externals sample_state 0 (lit "002") (lit "004") (lit "301a")
           ∅ ∅ sample_fixtures sample_fixtures [] 0 0 1 sim_descriptor sim_probe_output sim_probe_output);
    vm_compute; reflexivity.
Defined.

Lemma record_device_no_index_error_witness :
  FileNotFoundError = FileNotFoundError \/ FileNotFoundError = OSError.
Proof.
  apply (@record_device_no_index_error no_programs sample_listing sample_state 0 (World ∅ [])
           (snd (record_device (H := no_programs) sample_state 0 (World ∅ [])))).
  - vm_compute. reflexivity.
  - simpl. lia.
  - vm_compute. reflexivity.
Defined.

Lemma record_device_launch_failure_witness :
  record_device (H := no_programs) sample_state 0 (World ∅ []) =
    (Err FileNotFoundError,
     World ∅ ([] ++ [EvPrint (running (cmd_record_device (devname (lit "002") (lit "004"))) ++ nl)])).
Proof.
  apply (@record_device_launch_failure no_programs sample_state 0 (lit "002") (lit "004") ∅ []);
    vm_compute; reflexivity.
Defined.

Lemma record_device_write_failure_witness :
  record_device (H := full_disk) sample_state 0 (World ∅ []) =
  (Err OSError,
   World (<[descriptor_file (basename (lit "002") (lit "004")) := take 0 sim_descriptor]> ∅)
     ([] ++ [EvPrint (running (cmd_record_device (devname (lit "002") (lit "004"))) ++ nl);
             EvSpawn (cmd_record_device (devname (lit "002") (lit "004"))) Captured] ++
      [EvWrite (descriptor_file (basename (lit "002") (lit "004"))) (take 0 sim_descriptor)])).
Proof.
  apply (@record_device_write_failure full_disk sample_state 0 (lit "002") (lit "004")
           ∅ ∅ [] 0 sim_descriptor (WriteFailed 0)); vm_compute; try reflexivity; discriminate.
Defined.

Definition first_two_stages : PyM unit :=
  record_descriptor (H := sim_externals) (devname (lit "002") (lit "004")) (basename (lit "002") (lit "004"));;
  record_ioctls (H := sim_externals) sample_state 0
    (devname (lit "002") (lit "004")) (basename (lit "002") (lit "004")).

Lemma replay_reads_fresh_fixtures_witness :
  files (snd (first_two_stages (World ∅ []))) !! descriptor_file (basename (lit "002") (lit "004"))
    = Some sim_descriptor /\
  is_Some (files (snd (first_two_stages (World ∅ []))) !! ioctl_file (basename (lit "002") (lit "004"))).
Proof.
  apply (@replay_reads_fresh_fixtures sim_externals sim_contract sample_state 0 (lit "002") (lit "004")
           ∅ ∅ [] 0 sim_descriptor); vm_compute; reflexivity.
Defined.

Lemma basename_inj_witness : lit "002" = lit "002" /\ lit "004" = lit "004".
Proof. apply (basename_inj (lit "002") (lit "004") (lit "002") (lit "004")); reflexivity. Defined.

End Driver.
