(* ===== verification/Loop.v ===== *)
(** The loop of line 18 of [src/create_report.py],
    [for i in range(0, len(bus)): ...], as a state machine in the style
    of a TLA-like model: a state is the loop counter with the world
    ([Iter]), the normal exit ([Done]) or an exception that left the loop
    ([Raised]); [loop_step] takes one iteration, the body being
    [Driver.record_device].  [step] is the same relation as an
    executable function.

    The theorems: the machine always stops (strong normalisation, by the
    measure [len(bus) - i]); its final state is the result of the
    functional [Driver.record_all]; by rule induction over the reachable
    states, the processes started so far are the plan of the devices
    already handled followed by a prefix of the current device's
    commands, so an exception stops the recording of every later
    device; on a reliable system every device's replay is eventually
    started. *)

From Stdlib Require Import String Strings.Byte.
From S2P Require Import Prelude Builtins Enumerator Runtime Driver.

#[local] Open Scope Z_scope.

Module Loop.
Import Enumerator Driver.

Inductive loop_state :=
| Iter (i : nat) (w : world)     (** before the test of [i] against [len(bus)] *)
| Done (w : world)               (** the loop ended normally *)
| Raised (e : exn) (w : world).  (** the body raised [e] *)

Definition state_world (s : loop_state) : world :=
  match s with Iter _ w | Done w | Raised _ w => w end.

(** The value of the loop statement once it is left. *)
Definition outcome (s : loop_state) : result exn unit * world :=
  match s with
  | Raised e w => (Err e, w)
  | Iter _ w | Done w => (Ok tt, w)
  end.

Definition final (s : loop_state) : bool :=
  match s with Iter _ _ => false | _ => true end.

Section Step.
Context `{Externals} (st : enum_state).

Inductive loop_step : loop_state -> loop_state -> Prop :=
| step_body i w w' :
    (i < length (bus st))%nat -> record_device st i w = (Ok tt, w') ->
    loop_step (Iter i w) (Iter (S i) w')
| step_raise i w e w' :
    (i < length (bus st))%nat -> record_device st i w = (Err e, w') ->
    loop_step (Iter i w) (Raised e w')
| step_exit i w :
    (length (bus st) <= i)%nat -> loop_step (Iter i w) (Done w).

(** One step, computed. *)
Definition step (s : loop_state) : option loop_state :=
  match s with
  | Iter i w =>
      if decide (i < length (bus st))%nat then
        Some (match record_device st i w with
              | (Ok _, w') => Iter (S i) w'
              | (Err e, w') => Raised e w'
              end)
      else Some (Done w)
  | Done _ | Raised _ _ => None
  end.

(** [fuel] steps at most. *)
Fixpoint run (fuel : nat) (s : loop_state) : loop_state :=
  match fuel with
  | O => s
  | S f => match step s with Some s' => run f s' | None => s end
  end.

End Step.

(** What the loop has started when it is in a state, for the lists of
    the handles [hs] and the world [w0] it started from. *)
Definition loop_inv (hs : list device_handle) (w0 : world) (s : loop_state) : Prop :=
  match s with
  | Iter i w =>
      (i <= length hs)%nat /\
      spawned (events w) = spawned (events w0) ++ plan (take i hs)
  | Done w => spawned (events w) = spawned (events w0) ++ plan hs
  | Raised e w =>
      exists i h k, hs !! i = Some h /\ (k < 3)%nat /\
        spawned (events w) = spawned (events w0) ++ plan (take i hs) ++ take k (handle_cmds h) /\
        (e = FileNotFoundError \/ e = OSError)
  end.

(** Both fixture files of each of the first [n] devices exist in [w]. *)
Definition fixtures_present (hs : list device_handle) (n : nat) (w : world) : Prop :=
  forall j h, (j < n)%nat -> hs !! j = Some h ->
    is_Some (files w !! descriptor_file (basename (h_bus h) (h_device h))) /\
    is_Some (files w !! ioctl_file (basename (h_bus h) (h_device h))).

Definition fixtures_inv (hs : list device_handle) (s : loop_state) : Prop :=
  match s with
  | Iter i w => fixtures_present hs i w
  | Done w => fixtures_present hs (length hs) w
  | Raised _ _ => True
  end.

(** ** Lemmas *)

Lemma plan_take_S (hs : list device_handle) (i : nat) (h : device_handle) :
  hs !! i = Some h -> plan (take (S i) hs) = plan (take i hs) ++ handle_cmds h.
Proof. intros Hi. unfold plan. rewrite (take_S_r _ _ _ Hi), map_app, concat_app. cbn [map concat]. by rewrite app_nil_r. Qed.

(** The loop counter, read off a state: what is left to do. *)
Definition measure (st : enum_state) (s : loop_state) : nat :=
  match s with Iter i _ => S (length (bus st) - i) | _ => 0 end.

Section StepLemmas.
Context `{Externals} (st : enum_state).

Lemma step_spec (s t : loop_state) : loop_step st s t <-> step st s = Some t.
Proof.
  split.
  - destruct 1 as [i w w' Hi Hr|i w e w' Hi Hr|i w Hi]; simpl.
    + rewrite decide_True by done. by rewrite Hr.
    + rewrite decide_True by done. by rewrite Hr.
    + rewrite decide_False by lia. done.
  - destruct s as [i w| |]; simpl; [|discriminate..].
    case_decide; [|intros [= <-]; constructor; lia].
    destruct (record_device st i w) as [[[]|e] w'] eqn:E; intros [= <-]; by constructor.
Qed.

Lemma step_det (s t1 t2 : loop_state) :
  loop_step st s t1 -> loop_step st s t2 -> t1 = t2.
Proof. rewrite !step_spec. congruence. Qed.

Lemma final_nf (s : loop_state) : final s = true <-> nf (loop_step st) s.
Proof.
  split.
  - intros Hf [t Hst]. destruct Hst; discriminate.
  - intros Hnf. destruct s as [i w| |]; [|done..]. exfalso. apply Hnf.
    destruct (step st (Iter i w)) as [t|] eqn:E.
    + exists t. by apply step_spec.
    + revert E. simpl. case_decide; [by case_match|done].
Qed.

Lemma loop_step_measure (s t : loop_state) :
  loop_step st s t -> (measure st t < measure st s)%nat.
Proof. destruct 1; simpl; lia. Qed.

Lemma run_rtc (fuel : nat) (s : loop_state) : rtc (loop_step st) s (run st fuel s).
Proof.
  revert s. induction fuel as [|f IH]; intros s; simpl; [done|].
  destruct (step st s) as [t|] eqn:E; [|done].
  apply rtc_l with t; [by apply step_spec|apply IH].
Qed.

Lemma run_final (fuel : nat) (s : loop_state) :
  (measure st s <= fuel)%nat -> final (run st fuel s) = true.
Proof.
  revert s. induction fuel as [|f IH]; intros s Hm.
  - destruct s; simpl in *; [lia|done..].
  - simpl. destruct (step st s) as [t|] eqn:E.
    + apply IH. apply step_spec, loop_step_measure in E. lia.
    + destruct s as [i w| |]; [|done..]. revert E. simpl. case_decide; [by case_match|done].
Qed.

(** Enough fuel: [len(bus) - i + 1] steps end the loop from counter [i]. *)
Lemma loop_stops (i : nat) (w : world) :
  rtc (loop_step st) (Iter i w) (run st (S (length (bus st) - i)) (Iter i w)) /\
  final (run st (S (length (bus st) - i)) (Iter i w)) = true.
Proof. split; [apply run_rtc|apply run_final; simpl; lia]. Qed.

(** The functional loop from counter [i] ends where the machine ends. *)
Lemma for_each_loop (i : nat) (w : world) (t : loop_state) :
  rtc (loop_step st) (Iter i w) t -> final t = true ->
  for_each (seq i (length (bus st) - i)) (record_device st) w = outcome t.
Proof.
  intros Hrtc. remember (Iter i w) as s eqn:Hs. revert i w Hs.
  induction Hrtc as [s|s s' t Hstep Hrtc IH]; intros i w ->; [done|].
  intros Hf. inversion Hstep as [? ? w' Hi Hr|? ? e w' Hi Hr|? ? Hi]; subst.
  - replace (length (bus st) - i)%nat with (S (length (bus st) - S i)) by lia.
    simpl. rewrite (pym_bind_Ok _ _ _ _ _ Hr). by apply IH.
  - apply rtc_nf in Hrtc as <-; [|by apply final_nf].
    replace (length (bus st) - i)%nat with (S (length (bus st) - S i)) by lia.
    simpl. by rewrite (pym_bind_Err _ _ _ _ _ Hr).
  - apply rtc_nf in Hrtc as <-; [|by apply final_nf].
    by replace (length (bus st) - i)%nat with 0%nat by lia.
Qed.

End StepLemmas.

Section HandleLemmas.
Context `{Externals} (hs : list device_handle) (w0 : world).

(** On a reliable system the machine passes every counter up to the
    number of devices, having started the plan of the devices before. *)
Lemma loop_progress (n : nat) :
  reliable -> (n <= length hs)%nat ->
  exists w, rtc (loop_step (state_of hs)) (Iter 0 w0) (Iter n w) /\
    spawned (events w) = spawned (events w0) ++ plan (take n hs).
Proof.
  intros Hrel. induction n as [|n IH]; intros Hn.
  - exists w0. split; [done|]. by rewrite take_0, app_nil_r.
  - destruct IH as (w & Hrtc & Hsp); [lia|].
    destruct (lookup_lt_is_Some_2 hs n ltac:(lia)) as [h Hh].
    destruct (record_device_handle hs n h w Hrel Hh) as (w' & Hrun & Hsp').
    exists w'. split.
    + apply rtc_r with (Iter n w); [done|]. constructor; [simpl; rewrite length_map; lia|done].
    + by rewrite Hsp', Hsp, (plan_take_S _ _ _ Hh), app_assoc.
Qed.

(** [loop_inv] holds of every reachable state, by rule induction on
    [rtc]. *)
Lemma loop_inv_reachable (s : loop_state) :
  rtc (loop_step (state_of hs)) (Iter 0 w0) s -> loop_inv hs w0 s.
Proof.
  apply (rtc_ind_r (loop_inv hs w0)).
  { split; [lia|]. by rewrite take_0, app_nil_r. }
  intros s1 s2 _ Hstep Hinv.
  destruct Hstep as [i w w' Hi Hr|i w e w' Hi Hr|i w Hi]; simpl in Hi |- *;
    rewrite length_map in Hi; destruct Hinv as [Hle Hsp].
  - destruct (lookup_lt_is_Some_2 hs i Hi) as [h Hh].
    pose proof (record_device_spawned hs i h w w' (Ok tt) Hh Hr) as Hsp'.
    split; [lia|]. by rewrite Hsp', Hsp, (plan_take_S _ _ _ Hh), app_assoc.
  - destruct (lookup_lt_is_Some_2 hs i Hi) as [h Hh].
    destruct (record_device_spawned hs i h w w' (Err e) Hh Hr) as (k & Hk & Hsp' & He).
    exists i, h, k. split_and!; [done|done| |done]. by rewrite Hsp', Hsp, app_assoc.
  - by rewrite take_ge in Hsp by lia.
Qed.

End HandleLemmas.

(** ** Theorems *)

(** The machine has no infinite run: each step lowers [measure].  This
    holds for any loop body that returns; a child that hangs is outside
    the model ([run_program] always returns). *)
Theorem loop_terminates `{Externals} (st : enum_state) (s : loop_state) :
  sn (loop_step st) s.
Proof.
  remember (measure st s) as n eqn:Hn. revert s Hn.
  induction n as [n IH] using lt_wf_ind. intros s ->.
  constructor. intros t Hst. apply (IH (measure st t)); [by apply loop_step_measure|done].
Qed.

(** The functional loop [record_all] and the machine agree: the
    loop returns [r] exactly when the machine, started at counter 0,
    reaches a final state whose value is [r]. *)
Theorem record_all_loop `{Externals} (st : enum_state) (w : world)
    (r : result exn unit * world) :
  record_all st w = r <->
  exists t, rtc (loop_step st) (Iter 0 w) t /\ final t = true /\ outcome t = r.
Proof.
  unfold record_all. rewrite <- (Nat.sub_0_r (length (bus st))). split.
  - intros <-. destruct (loop_stops st 0 w) as [Hrtc Hf].
    eexists. split_and!; [exact Hrtc|exact Hf|]. symmetry. by apply for_each_loop.
  - intros (t & Hrtc & Hf & <-). by apply for_each_loop.
Qed.

(** C15: Invariant of every reachable state, by rule induction: at
    counter [i] the processes started since the loop began are the
    commands of the first [i] devices in order; at the normal exit, those
    of all devices; after an exception, those of the devices before some
    device [i] followed by fewer than three of device [i]'s commands, and
    the exception is a launch or a write failure.  So a failure on one
    device stops the recording of every later device. *)
Theorem loop_invariant `{Externals} (hs : list device_handle) (w0 : world) (s : loop_state) :
  rtc (loop_step (state_of hs)) (Iter 0 w0) s -> loop_inv hs w0 s.
Proof. apply loop_inv_reachable. Qed.

(** C16: Liveness: on a system where every program launches and every
    write succeeds, the replay of every enumerated device is eventually
    started. *)
Theorem loop_replay_started `{Externals} (hs : list device_handle) (w0 : world)
    (j : nat) (h : device_handle) :
  reliable -> hs !! j = Some h ->
  exists s, rtc (loop_step (state_of hs)) (Iter 0 w0) s /\
    cmd_replay (devname (h_bus h) (h_device h)) (basename (h_bus h) (h_device h)) (h_pid h)
      ∈ spawned (events (state_world s)).
Proof.
  intros Hrel Hj. destruct (loop_progress hs w0 (S j) Hrel) as (w & Hrtc & Hsp).
  { apply lookup_lt_Some in Hj. lia. }
  exists (Iter (S j) w). split; [done|]. simpl. rewrite Hsp, (plan_take_S _ _ _ Hj).
  rewrite !elem_of_app. right. right. apply list_elem_of_In. simpl. tauto.
Qed.

(** The fixtures accumulate: when the programs remove no file and
    [umockdev-record] keeps its promise, and no bus or device token holds
    an ['='], at counter [i] both fixture files of each of the first [i]
    devices exist, and when the loop ends normally those of every
    device. *)
Lemma loop_fixtures `{Externals} `{!KeepsFiles} `{!UmockdevContract}
    (hs : list device_handle) (w0 : world) (s : loop_state) :
  Forall (fun h => without 61 (h_bus h) && without 61 (h_device h) = true) hs ->
  rtc (loop_step (state_of hs)) (Iter 0 w0) s -> fixtures_inv hs s.
Proof.
  intros Hhs. apply (rtc_ind_r (fixtures_inv hs)); [intros j h Hj; lia|].
  intros s1 s2 _ Hstep Hinv.
  destruct Hstep as [i w w' Hi Hr|i w e w' Hi Hr|i w Hi]; simpl in Hi |- *;
    rewrite ?length_map in Hi; [|done|].
  - destruct (lookup_lt_is_Some_2 hs i Hi) as [[b d p] Hh].
    pose proof (proj1 (Forall_lookup _ _) Hhs i _ Hh) as Hbd%andb_true_iff; simpl in Hbd.
    destruct (record_device_fixtures (state_of hs) i b d w w') as (Hkeep & Hdesc & Hioctl);
      [by cbn; rewrite list_lookup_fmap, Hh|by cbn; rewrite list_lookup_fmap, Hh|tauto..|].
    intros j h Hj Hjh. destruct (decide (j = i)) as [->|Hne].
    + by simplify_eq/=.
    + destruct (Hinv j h ltac:(lia) Hjh). split; by apply Hkeep.
  - intros j h Hj Hjh. apply (Hinv j h); [lia|done].
Qed.

(** ** Witnesses *)

(** The two devices of [Enumerator.sample_listing]. *)
Definition sample_handles : list device_handle :=
  [DeviceHandle (lit "002") (lit "004") (lit "301a");
   DeviceHandle (lit "001") (lit "003") (lit "2113")].

Lemma loop_invariant_witness :
  loop_inv sample_handles (World ∅ [])
    (run (H := full_disk) (state_of sample_handles) 3 (Iter 0 (World ∅ []))).
Proof. apply (@loop_invariant full_disk). apply run_rtc. Defined.

Lemma loop_replay_started_witness :
  exists s, rtc (loop_step (H := sim_externals) (state_of sample_handles)) (Iter 0 (World ∅ [])) s /\
    cmd_replay (devname (lit "001") (lit "003")) (basename (lit "001") (lit "003")) (lit "2113")
      ∈ spawned (events (state_world s)).
Proof.
  apply (@loop_replay_started sim_externals sample_handles (World ∅ []) 1
           (DeviceHandle (lit "001") (lit "003") (lit "2113"))).
  - apply sim_reliable.
  - reflexivity.
Defined.

End Loop.
