(* ===== verification/Report.v ===== *)
(** The whole script [src/create_report.py]: run [lsusb -d 413c:]
    (lines 4-6), decode its output, enumerate the devices (lines 7-15)
    and record and replay each of them (lines 17-43).  The end-to-end
    theorems say which processes the script starts and in what order,
    what happens on malformed or undecodable [lsusb] output, and that the
    exit statuses never matter. *)

From Stdlib Require Import String Strings.Byte.
From S2P Require Import Prelude Builtins Utf8 Enumerator Runtime Driver Loop.

#[local] Open Scope Z_scope.

Module Report.
Import Enumerator Driver.

(** [cmd = ['lsusb', '-d', '413c:']] (line 4). *)
Definition lsusb_cmd : list (list Z) := [lit "lsusb"; lit "-d"; lit "413c:"].

Section Main.
Context `{Externals}.

(** The script, top to bottom. *)
Definition main : PyM unit :=
  raw ← popen_communicate lsusb_cmd;
  out ← lift (Utf8.utf8_decode raw);
  st ← lift (enumerate out);
  record_all st.

End Main.

(** A system where every program prints [raw] and exits with 0. *)
Definition canned_output (raw : list byte) : Externals :=
  {| run_program := fun _ fs => Some (0, raw, fs); store := fun _ _ _ => Written |}.

(** The lines of [lsusb]'s decoded output. *)
Definition listing_lines (out : list Z) : list (list Z) := str_split_char newline out.

(** The script on the simulated system with one Dell keyboard:
    it ends normally, leaves exactly the two fixture files
    [002.004.umockdev] and [002.004.ioctl], and starts [lsusb] and the
    three commands of bus 002, device 004, product 301a, in that
    order. *)
Example main_sim_run :
  main (H := sim_externals) (World ∅ []) =
  (Ok tt,
   World (<[lit "002.004.ioctl" := sim_trace]>
            (<[lit "002.004.umockdev" := sim_descriptor]> ∅))
     (events (snd (main (H := sim_externals) (World ∅ []))))) /\
  spawned (events (snd (main (H := sim_externals) (World ∅ [])))) =
  [lsusb_cmd;
   [lit "umockdev-record"; lit "/dev/bus/usb/002/004"];
   [lit "umockdev-record"; lit "--ioctl=/dev/bus/usb/002/004=002.004.ioctl";
    lit "./hidreport"; lit "301a"];
   [lit "umockdev-run"; lit "--device=002.004.umockdev";
    lit "--ioctl=/dev/bus/usb/002/004=002.004.ioctl"; lit "./hidreport"; lit "301a"]].
Proof. split; vm_compute; reflexivity. Qed.

(** On a full disk, a previous good recording is lost: the script
    started in a directory holding the fixtures of an earlier run stops
    with [OSError] after the first [umockdev-record], leaving the
    earlier [002.004.umockdev] truncated to nothing; the ioctl recording
    and the replay never run. *)
Example main_full_disk :
  let fs := <[lit "002.004.umockdev" := sim_descriptor]> ∅ in
  fst (main (H := full_disk) (World fs [])) = Err OSError /\
  files (snd (main (H := full_disk) (World fs []))) !! lit "002.004.umockdev" = Some [] /\
  spawned (events (snd (main (H := full_disk) (World fs [])))) =
  [lsusb_cmd; [lit "umockdev-record"; lit "/dev/bus/usb/002/004"]].
Proof. vm_compute. split_and!; reflexivity. Qed.

Section Theorems.
Context `{Externals}.

Lemma main_after_lsusb (fs fs1 : gmap (list Z) (list byte)) (evs : list event)
    (c : Z) (raw : list byte) :
  run_program lsusb_cmd fs = Some (c, raw, fs1) ->
  main (World fs evs) =
  (out ← lift (Utf8.utf8_decode raw); st ← lift (enumerate out); record_all st)
    (World fs1 (evs ++ [EvSpawn lsusb_cmd Captured])).
Proof.
  intros Hl. unfold main.
  assert (Hp : popen_communicate lsusb_cmd (World fs evs) =
               (Ok raw, World fs1 (evs ++ [EvSpawn lsusb_cmd Captured]))).
  { unfold popen_communicate. simpl. by rewrite Hl. }
  by rewrite (pym_bind_Ok _ _ _ _ _ Hp).
Qed.

Lemma enumerate_handles (out : list Z) (hs : list device_handle) :
  parse_handles (listing_lines out) = Ok hs -> enumerate out = Ok (state_of hs).
Proof.
  intros Hp. unfold enumerate. rewrite enumerate_lines_spec. unfold listing_lines in Hp.
  by rewrite Hp.
Qed.

(** Once [lsusb] ran and its listing parsed, the script is the [Loop]
    machine started at counter 0: its result is the value of the final
    state the machine reaches. *)
Lemma main_runs_loop (fs fs1 : gmap (list Z) (list byte)) (evs : list event) (c : Z)
    (raw : list byte) (out : list Z) (hs : list device_handle) :
  run_program lsusb_cmd fs = Some (c, raw, fs1) ->
  Utf8.utf8_decode raw = Ok out ->
  parse_handles (listing_lines out) = Ok hs ->
  exists t, rtc (Loop.loop_step (state_of hs))
              (Loop.Iter 0 (World fs1 (evs ++ [EvSpawn lsusb_cmd Captured]))) t /\
    Loop.final t = true /\ main (World fs evs) = Loop.outcome t.
Proof.
  intros Hl Hd Hp.
  rewrite (main_after_lsusb _ _ _ _ _ Hl), Hd, lift_Ok, (enumerate_handles _ _ Hp), lift_Ok.
  unfold record_all. rewrite <- (Nat.sub_0_r (length (bus (state_of hs)))).
  destruct (Loop.loop_stops (state_of hs) 0 (World fs1 (evs ++ [EvSpawn lsusb_cmd Captured])))
    as [Hrtc Hf].
  exists (Loop.run (state_of hs) (S (length (bus (state_of hs)) - 0))
            (Loop.Iter 0 (World fs1 (evs ++ [EvSpawn lsusb_cmd Captured])))).
  split_and!; [done|done|]. by apply Loop.for_each_loop.
Qed.

(** C2: A malformed line anywhere in [lsusb]'s output stops the script with
    [IndexError] before any device is recorded: [lsusb] is the only
    process started and no file is written. *)
Theorem main_malformed_listing (fs fs1 : gmap (list Z) (list byte)) (evs : list event)
    (c : Z) (raw : list byte) (out : list Z) :
  run_program lsusb_cmd fs = Some (c, raw, fs1) ->
  Utf8.utf8_decode raw = Ok out ->
  existsb (fun l => negb (line_ok l)) (listing_lines out) = true ->
  main (World fs evs) = (Err IndexError, World fs1 (evs ++ [EvSpawn lsusb_cmd Captured])).
Proof.
  intros Hl Hd Hbad%existsb_line_ok. rewrite (main_after_lsusb _ _ _ _ _ Hl), Hd, lift_Ok.
  assert (He : enumerate out = Err IndexError).
  { unfold enumerate. rewrite enumerate_lines_spec.
    destruct (parse_handles_Err (str_split_char newline out) IndexError) as [_ Hp].
    by rewrite Hp. }
  by rewrite He, lift_Err.
Qed.

(** C12: Output of [lsusb] that is not UTF-8 stops the script with
    [UnicodeDecodeError] right after [lsusb]. *)
Theorem main_undecodable_listing (fs fs1 : gmap (list Z) (list byte)) (evs : list event)
    (c : Z) (raw : list byte) (e : exn) :
  run_program lsusb_cmd fs = Some (c, raw, fs1) ->
  Utf8.utf8_decode raw = Err e ->
  e = UnicodeDecodeError /\
  main (World fs evs) = (Err e, World fs1 (evs ++ [EvSpawn lsusb_cmd Captured])).
Proof.
  intros Hl Hd. split; [by eapply Utf8.utf8_decode_Err|].
  by rewrite (main_after_lsusb _ _ _ _ _ Hl), Hd, lift_Err.
Qed.

(** C1: On well-formed output, when every program launches and every
    write succeeds, the script runs
    to its end and starts [lsusb], then for each non-blank line, in
    order, [umockdev-record], [umockdev-record --ioctl] and
    [umockdev-run] on the device of that line: [1 + 3k] processes for
    [k] devices. *)
Theorem main_commands (fs fs1 : gmap (list Z) (list byte)) (evs : list event)
    (c : Z) (raw : list byte) (out : list Z) :
  reliable ->
  run_program lsusb_cmd fs = Some (c, raw, fs1) ->
  Utf8.utf8_decode raw = Ok out ->
  forallb line_ok (listing_lines out) = true ->
  exists hs w', parse_handles (listing_lines out) = Ok hs /\
    main (World fs evs) = (Ok tt, w') /\
    spawned (events w') = spawned evs ++ lsusb_cmd :: plan hs /\
    length (spawned (events w')) =
      (length (spawned evs) + 1 + 3 * length (nonblank_lines (listing_lines out)))%nat.
Proof.
  intros Hall Hl Hd Hwf%forallb_line_ok.
  destruct (parse_handles (listing_lines out)) as [hs|e] eqn:Hp; last first.
  { apply parse_handles_Err in Hp as [_ Hex]. apply Exists_exists in Hex as (l & Hin & Hb & Hw).
    rewrite Forall_forall in Hwf. specialize (Hwf l Hin Hb). congruence. }
  destruct (record_all_plan hs (World fs1 (evs ++ [EvSpawn lsusb_cmd Captured])) Hall)
    as (w' & Hrun & Hsp).
  exists hs, w'. split_and!; [done| | |].
  - by rewrite (main_after_lsusb _ _ _ _ _ Hl), Hd, lift_Ok, (enumerate_handles _ _ Hp), lift_Ok.
  - rewrite Hsp. simpl. rewrite spawned_app. simpl. by rewrite <- app_assoc.
  - rewrite Hsp. simpl. rewrite spawned_app, !length_app, plan_length. simpl.
    rewrite (Forall2_length _ _ _ (parse_handles_Ok _ _ Hp)). lia.
Qed.

(** C18: What the script leaves behind: when it ends normally, every
    device of the listing has both fixture files, [<bus>.<device>.umockdev]
    and [<bus>.<device>.ioctl], provided the programs remove no file,
    [umockdev-record --ioctl] writes the file it is given, and no bus or
    device token holds an ['=']. *)
Theorem main_fixtures `{!KeepsFiles} `{!UmockdevContract}
    (fs fs1 : gmap (list Z) (list byte)) (evs : list event) (c : Z) (raw : list byte)
    (out : list Z) (hs : list device_handle) (w : world) :
  run_program lsusb_cmd fs = Some (c, raw, fs1) ->
  Utf8.utf8_decode raw = Ok out ->
  parse_handles (listing_lines out) = Ok hs ->
  Forall (fun h => without 61 (h_bus h) && without 61 (h_device h) = true) hs ->
  main (World fs evs) = (Ok tt, w) ->
  forall h, h ∈ hs ->
    is_Some (files w !! descriptor_file (basename (h_bus h) (h_device h))) /\
    is_Some (files w !! ioctl_file (basename (h_bus h) (h_device h))).
Proof.
  intros Hl Hd Hp Hhs Hmain h Hh.
  destruct (main_runs_loop fs fs1 evs c raw out hs Hl Hd Hp) as (t & Hrtc & Hf & Ht).
  pose proof (Loop.loop_fixtures hs _ _ Hhs Hrtc) as Hinv.
  rewrite Hmain in Ht. destruct t as [| w' |]; simplify_eq/=.
  apply list_elem_of_lookup_1 in Hh as [j Hj].
  apply (Hinv j h); [by eapply lookup_lt_Some|done].
Qed.

(** C19: An exception in the loop ends the whole script: it is a launch
    or a write failure, and the processes started are [lsusb], the three
    commands of each device before some device [i], and fewer than
    three commands of device [i]; no later device is touched. *)
Theorem main_error_prefix (fs fs1 : gmap (list Z) (list byte)) (evs : list event) (c : Z)
    (raw : list byte) (out : list Z) (hs : list device_handle) (e : exn) (w : world) :
  run_program lsusb_cmd fs = Some (c, raw, fs1) ->
  Utf8.utf8_decode raw = Ok out ->
  parse_handles (listing_lines out) = Ok hs ->
  main (World fs evs) = (Err e, w) ->
  (e = FileNotFoundError \/ e = OSError) /\
  exists i h k, hs !! i = Some h /\ (k < 3)%nat /\
    spawned (events w) = spawned evs ++ lsusb_cmd :: plan (take i hs) ++ take k (handle_cmds h).
Proof.
  intros Hl Hd Hp Hmain.
  destruct (main_runs_loop fs fs1 evs c raw out hs Hl Hd Hp) as (t & Hrtc & Hf & Ht).
  pose proof (Loop.loop_inv_reachable hs _ _ Hrtc) as Hinv.
  rewrite Hmain in Ht. destruct t as [| |e' w']; simplify_eq/=.
  destruct Hinv as (i & h & k & Hh & Hk & Hsp & He). split; [done|].
  exists i, h, k. split_and!; [done|done|]. rewrite Hsp, spawned_app. simpl.
  by rewrite <- app_assoc.
Qed.

End Theorems.

(** C6: The exit status of no program changes the run of the script. *)
Theorem main_status_blind (E1 E2 : Externals) (w : world) :
  same_but_status E1 E2 -> main (H := E1) w = main (H := E2) w.
Proof.
  intros Hsame. unfold main. unfold mbind at 1 4, pym_bind at 1 4.
  rewrite (popen_status_blind E1 E2 lsusb_cmd w Hsame).
  destruct (popen_communicate lsusb_cmd w) as [[raw|e] w1]; [|done].
  unfold mbind, pym_bind, lift.
  destruct (Utf8.utf8_decode raw) as [out|e]; [|done].
  destruct (enumerate out) as [st|e]; [|done].
  by apply record_all_status_blind.
Qed.

Lemma sim_same_but_status (k1 k2 : Z) : same_but_status (sim_with k1) (sim_with k2).
Proof. split; [|done]. intros argv fs. simpl. unfold sim_run. by repeat case_match. Qed.

(** ** Witnesses *)

Definition sim_listing_text : list Z :=
  lit "Bus 002 Device 004: ID 413c:301a Dell Computer Corp. Dell Keyboard" ++ [10].

Lemma main_commands_witness :
  exists hs w', parse_handles (listing_lines sim_listing_text) = Ok hs /\
    main (H := sim_externals) (World ∅ []) = (Ok tt, w') /\
    spawned (events w') = spawned [] ++ lsusb_cmd :: plan hs /\
    length (spawned (events w')) =
      (length (spawned []) + 1 + 3 * length (nonblank_lines (listing_lines sim_listing_text)))%nat.
Proof.
  apply (@main_commands sim_externals ∅ ∅ [] 0 sim_lsusb sim_listing_text).
  - apply sim_reliable.
  - reflexivity.
  - vm_compute. reflexivity.
  - vm_compute. reflexivity.
Defined.

Lemma main_fixtures_witness :
  is_Some (files (snd (main (H := sim_with 1) (World ∅ [])))
             !! descriptor_file (basename (lit "002") (lit "004"))) /\
  is_Some (files (snd (main (H := sim_with 1) (World ∅ [])))
             !! ioctl_file (basename (lit "002") (lit "004"))).
Proof.
  refine (@main_fixtures (sim_with 1) (sim_keeps_files 1) sim_contract ∅ ∅ [] 0 sim_lsusb
           sim_listing_text [DeviceHandle (lit "002") (lit "004") (lit "301a")]
           (snd (main (H := sim_with 1) (World ∅ []))) _ _ _ _ _
           (DeviceHandle (lit "002") (lit "004") (lit "301a")) _).
  - reflexivity.
  - vm_compute. reflexivity.
  - vm_compute. reflexivity.
  - vm_compute. repeat constructor.
  - vm_compute. reflexivity.
  - apply list_elem_of_In. simpl. tauto.
Defined.

Lemma main_error_prefix_witness :
  (FileNotFoundError = FileNotFoundError \/ FileNotFoundError = OSError) /\
  exists i h k, [DeviceHandle (lit "002") (lit "004") (lit "301a")] !! i = Some h /\ (k < 3)%nat /\
    spawned (events (snd (main (H := no_umockdev) (World ∅ [])))) =
      spawned [] ++ lsusb_cmd ::
        plan (take i [DeviceHandle (lit "002") (lit "004") (lit "301a")]) ++ take k (handle_cmds h).
Proof.
  apply (@main_error_prefix no_umockdev ∅ ∅ [] 0 sim_lsusb sim_listing_text
           [DeviceHandle (lit "002") (lit "004") (lit "301a")] FileNotFoundError
           (snd (main (H := no_umockdev) (World ∅ []))));
    vm_compute; reflexivity.
Defined.

Definition short_line : list byte := list_byte_of_string "Bus 002 Device 004:".

Lemma main_malformed_listing_witness :
  main (H := canned_output short_line) (World ∅ []) =
    (Err IndexError, World ∅ ([] ++ [EvSpawn lsusb_cmd Captured])).
Proof.
  apply (@main_malformed_listing (canned_output short_line) ∅ ∅ [] 0 short_line
           (lit "Bus 002 Device 004:")); vm_compute; reflexivity.
Defined.

Lemma main_undecodable_listing_witness :
  UnicodeDecodeError = UnicodeDecodeError /\
  main (H := canned_output [xff]) (World ∅ []) =
    (Err UnicodeDecodeError, World ∅ ([] ++ [EvSpawn lsusb_cmd Captured])).
Proof.
  apply (@main_undecodable_listing (canned_output [xff]) ∅ ∅ [] 0 [xff]);
    vm_compute; reflexivity.
Defined.

Lemma main_status_blind_witness :
  main (H := sim_with 1) (World ∅ []) = main (H := sim_with 0) (World ∅ []).
Proof. apply main_status_blind. apply sim_same_but_status. Defined.

End Report.
