(* ===== verification/Console.v ===== *)
(** What the operator sees on the terminal or in the log file: the
    script's [print] calls go through Python's [sys.stdout], a text
    stream buffered in the interpreter, while the children started by
    [subprocess.call] (lines 35, 42) inherit file descriptor 1 and write
    to it directly.  [sys.stdout] flushes after every line when it is a
    terminal ([Tty]); otherwise ([Pipe]: a pipe or a file) it keeps up to
    [buffer_size] bytes (io.DEFAULT_BUFFER_SIZE) and writes them when that
    much is pending or when the interpreter exits.  Nothing in the script
    flushes it before starting a child.

    [console_step] interprets one event of [Runtime]'s log, [screen] the
    whole log followed by the flush at exit.  The theorems: on a terminal
    the screen follows the order of the calls; through a pipe, when less
    than [buffer_size] bytes are printed, every child's output comes
    before every echo line, and the traceback of an uncaught exception
    before them too. *)

From Stdlib Require Import String Strings.Byte.
From S2P Require Import Prelude Builtins Utf8 Enumerator Runtime Driver Report.

#[local] Open Scope Z_scope.

Module Console.
Import Enumerator Driver Report.

(** [sys.stdout.isatty()]. *)
Inductive stdout_kind := Tty | Pipe.

(** [io.DEFAULT_BUFFER_SIZE]: the text layer's chunk and the binary
    buffer's size. *)
Definition buffer_size : Z := 8192.

(** Bytes held by [sys.stdout] and bytes already written to descriptor 1. *)
Record console := Console { pending : list Z; shown : list Z }.

(** The bytes [print] hands to the stream: the text, encoded in UTF-8. *)
Definition print_bytes (text : list Z) : list Z := Utf8.encode text.

Definition child_bytes (out : list byte) : list Z := map Utf8.byte_val out.

Definition console_step (k : stdout_kind) (c : console) (e : event) : console :=
  match e with
  | EvPrint text =>
      let p := pending c ++ print_bytes text in
      match k with
      | Tty => Console [] (shown c ++ p)
      | Pipe => if buffer_size <=? Z.of_nat (length p) then Console [] (shown c ++ p)
                else Console p (shown c)
      end
  | EvChildOutput out => Console (pending c) (shown c ++ child_bytes out)
  | EvSpawn _ _ | EvWrite _ _ => c
  end.

Definition console_run (k : stdout_kind) (evs : list event) : console :=
  fold_left (console_step k) evs (Console [] []).

(** At exit (normal or by an uncaught exception) the interpreter flushes
    [sys.stdout]. *)
Definition screen (k : stdout_kind) (evs : list event) : list Z :=
  let c := console_run k evs in shown c ++ pending c.

(** The first and last lines of the traceback CPython writes for an
    uncaught exception; the frames between them are elided. *)
Definition exn_name (e : exn) : list Z :=
  match e with
  | IndexError => lit "IndexError"
  | UnicodeDecodeError => lit "UnicodeDecodeError"
  | FileNotFoundError => lit "FileNotFoundError"
  | OSError => lit "OSError"
  end.

Definition traceback (e : exn) : list Z :=
  lit "Traceback (most recent call last):" ++ [10] ++ exn_name e ++ [10].

(** Standard output and standard error sent to the same place
    ([2>&1]).  After an uncaught exception the interpreter writes the
    traceback to [sys.stderr], which is not held back, and only then
    flushes [sys.stdout] while it shuts down. *)
Definition screen_at_exit (k : stdout_kind) (r : result exn unit) (evs : list event) : list Z :=
  let c := console_run k evs in
  shown c ++ match r with Ok _ => [] | Err e => print_bytes (traceback e) end ++ pending c.

(** Reference: the bytes of each event in the order of the calls. *)
Definition event_bytes (e : event) : list Z :=
  match e with
  | EvPrint text => print_bytes text
  | EvChildOutput out => child_bytes out
  | _ => []
  end.

Definition printed (evs : list event) : list Z :=
  concat (map (fun e => match e with EvPrint t => print_bytes t | _ => [] end) evs).

Definition children_output (evs : list event) : list Z :=
  concat (map (fun e => match e with EvChildOutput o => child_bytes o | _ => [] end) evs).

(** ** Lemmas *)

Lemma printed_cons (e : event) (evs : list event) :
  printed (e :: evs) =
  match e with EvPrint t => print_bytes t | _ => [] end ++ printed evs.
Proof. reflexivity. Qed.

Lemma children_output_cons (e : event) (evs : list event) :
  children_output (e :: evs) =
  match e with EvChildOutput o => child_bytes o | _ => [] end ++ children_output evs.
Proof. reflexivity. Qed.

Lemma console_run_tty (evs : list event) (s : list Z) :
  fold_left (console_step Tty) evs (Console [] s) = Console [] (s ++ concat (map event_bytes evs)).
Proof.
  revert s. induction evs as [|e evs IH]; intros s; simpl; [by rewrite app_nil_r|].
  destruct e; simpl; rewrite IH; f_equal; by rewrite ?app_nil_r, <- ?app_assoc.
Qed.

Lemma console_run_pipe (evs : list event) (p s : list Z) :
  (Z.of_nat (length (p ++ printed evs)) < buffer_size)%Z ->
  fold_left (console_step Pipe) evs (Console p s) =
  Console (p ++ printed evs) (s ++ children_output evs).
Proof.
  revert p s. induction evs as [|e evs IH]; intros p s Hlen; simpl.
  - by rewrite !app_nil_r.
  - unfold buffer_size in *. rewrite printed_cons in Hlen. rewrite printed_cons, children_output_cons.
    destruct e as [t| | |]; simpl.
    + rewrite !length_app in Hlen.
      unfold buffer_size. rewrite (proj2 (Z.leb_gt _ _)) by (rewrite length_app; lia).
      rewrite IH by (unfold buffer_size; rewrite !length_app; lia). by rewrite <- app_assoc.
    + rewrite IH by done. done.
    + rewrite IH by done. by rewrite <- app_assoc.
    + rewrite IH by done. done.
Qed.

(** ** Theorems *)

(** On a terminal the screen shows the echoes and the children's output
    in exactly the order of the calls. *)
Theorem screen_tty (evs : list event) :
  screen Tty evs = concat (map event_bytes evs).
Proof. unfold screen, console_run. rewrite console_run_tty. simpl. by rewrite app_nil_r. Qed.

(** Through a pipe or into a file, when less than [buffer_size] bytes are
    printed, the whole output of the children comes first and every echo
    line after it: an echo never precedes the command it announces. *)
Theorem screen_pipe_small (evs : list event) :
  (Z.of_nat (length (printed evs)) < buffer_size)%Z ->
  screen Pipe evs = children_output evs ++ printed evs.
Proof.
  intros Hlen. unfold screen, console_run. rewrite console_run_pipe by done. done.
Qed.

(** The script on the simulated system: on a terminal the screen starts
    with the first echo, ["Running: umockdev-record /dev/bus/usb/002/004"];
    redirected to a file it starts with what [./hidreport] printed. *)
Example main_screen_order :
  take 9 (screen Tty (events (snd (main (H := sim_externals) (World ∅ []))))) = lit "Running: " /\
  take 10 (screen Pipe (events (snd (main (H := sim_externals) (World ∅ []))))) = lit "HID report".
Proof. split; vm_compute; reflexivity. Qed.

(** The buffering model at an exceptional exit: for any log with less
    than [buffer_size] printed bytes, the children's output, then the
    traceback, then what was printed.  [main_launch_failure_screen]
    applies it to a run of the script. *)
Theorem exit_screen_pipe_small (e : exn) (evs : list event) :
  (Z.of_nat (length (printed evs)) < buffer_size)%Z ->
  screen_at_exit Pipe (Err e) evs = children_output evs ++ print_bytes (traceback e) ++ printed evs.
Proof.
  intros Hlen. unfold screen_at_exit, console_run. rewrite console_run_pipe by done.
  cbn [shown pending app]. done.
Qed.

Lemma screen_at_exit_tty (r : result exn unit) (evs : list event) :
  screen_at_exit Tty r evs =
  concat (map event_bytes evs) ++ match r with Ok _ => [] | Err e => print_bytes (traceback e) end.
Proof.
  unfold screen_at_exit, console_run. rewrite console_run_tty. cbn [shown pending app].
  by rewrite app_nil_r.
Qed.

(** The bytes of one iteration: its four echoes, and the output of the
    ioctl recording and of the replay. *)
Lemma iteration_bytes (b d p : list Z) (out1 o2 o3 : list byte) :
  let dn := devname b d in
  let bn := basename b d in
  let e1 := print_bytes (running (cmd_record_device dn) ++ nl) in
  let e2 := print_bytes ((nl ++ running (cmd_record_ioctl dn bn p)) ++ nl) in
  let e3 := print_bytes ((nl ++ running (cmd_replay dn bn p)) ++ nl) in
  let e4 := print_bytes (nl ++ nl) in
  concat (map event_bytes (iteration_events b d p out1 o2 o3)) =
    e1 ++ e2 ++ child_bytes o2 ++ e3 ++ child_bytes o3 ++ e4 /\
  printed (iteration_events b d p out1 o2 o3) = e1 ++ e2 ++ e3 ++ e4 /\
  children_output (iteration_events b d p out1 o2 o3) = child_bytes o2 ++ child_bytes o3.
Proof.
  unfold iteration_events, printed, children_output.
  cbn [map concat event_bytes app]. rewrite ?app_nil_r. split_and!; reflexivity.
Qed.

(** C20: What one iteration shows.  On a terminal: each echo, then the
    output of the command it announces, in the order of lines 22-43, as
    the spec describes.  Through a pipe or into a file (less than
    [buffer_size] bytes echoed): the output of the ioctl recording and of
    the replay first, then all four echoes; every echo comes after the
    command it announces has run. *)
Theorem iteration_screen `{Externals} (st : enum_state) (i : nat)
    (fs : gmap (list Z) (list byte)) (w' : world) :
  record_device st i (World fs []) = (Ok tt, w') ->
  exists b d p c2 o2 f2 f2' c3 o3 f3,
    bus st !! i = Some b /\ device st !! i = Some d /\ pid st !! i = Some p /\
    run_program (cmd_record_ioctl (devname b d) (basename b d) p) f2 = Some (c2, o2, f2') /\
    run_program (cmd_replay (devname b d) (basename b d) p) f2' = Some (c3, o3, f3) /\
    let dn := devname b d in
    let bn := basename b d in
    let e1 := print_bytes (running (cmd_record_device dn) ++ nl) in
    let e2 := print_bytes ((nl ++ running (cmd_record_ioctl dn bn p)) ++ nl) in
    let e3 := print_bytes ((nl ++ running (cmd_replay dn bn p)) ++ nl) in
    let e4 := print_bytes (nl ++ nl) in
    screen Tty (events w') = e1 ++ e2 ++ child_bytes o2 ++ e3 ++ child_bytes o3 ++ e4 /\
    ((Z.of_nat (length (e1 ++ e2 ++ e3 ++ e4)) < buffer_size)%Z ->
     screen Pipe (events w') = child_bytes o2 ++ child_bytes o3 ++ e1 ++ e2 ++ e3 ++ e4).
Proof.
  intros Hrun. apply record_device_Ok_inv in Hrun
    as (b & d & p & c1 & out1 & fs1 & c2 & o2 & fs2 & c3 & o3 & fs3 &
        Hb & Hd & Hp & _ & _ & H2 & H3 & ->).
  destruct (iteration_bytes b d p out1 o2 o3) as (Hall & Hpr & Hch).
  exists b, d, p, c2, o2, (<[descriptor_file (basename b d) := out1]> fs1), fs2, c3, o3, fs3.
  do 5 (split; [done|]). cbv zeta. cbn [events app]. split.
  - by rewrite screen_tty, Hall.
  - intros Hlen. rewrite screen_pipe_small by (by rewrite Hpr). by rewrite Hpr, Hch, <- app_assoc.
Qed.

(** C21: When [umockdev-record] is missing, the script dies on the first
    device with [FileNotFoundError].  On a terminal the operator sees the
    echo of the command, then the traceback; with [2>&1] into a pipe or a
    file, the traceback comes first and the echo after it. *)
Theorem main_launch_failure_screen `{Externals} (fs fs1 : gmap (list Z) (list byte)) (c : Z)
    (raw : list byte) (out : list Z) (h : device_handle) (hs : list device_handle) :
  run_program lsusb_cmd fs = Some (c, raw, fs1) ->
  Utf8.utf8_decode raw = Ok out ->
  parse_handles (listing_lines out) = Ok (h :: hs) ->
  run_program (cmd_record_device (devname (h_bus h) (h_device h))) fs1 = None ->
  let e1 := print_bytes (running (cmd_record_device (devname (h_bus h) (h_device h))) ++ nl) in
  exists w, main (World fs []) = (Err FileNotFoundError, w) /\
    screen_at_exit Tty (Err FileNotFoundError) (events w) =
      e1 ++ print_bytes (traceback FileNotFoundError) /\
    ((Z.of_nat (length e1) < buffer_size)%Z ->
     screen_at_exit Pipe (Err FileNotFoundError) (events w) =
       print_bytes (traceback FileNotFoundError) ++ e1).
Proof.
  intros Hl Hd Hp H1 e1.
  rewrite (main_after_lsusb _ _ _ _ _ Hl), Hd, lift_Ok, (enumerate_handles _ _ Hp), lift_Ok.
  unfold record_all. cbn [state_of bus map length seq for_each].
  set (w1 := World fs1 ([] ++ [EvSpawn lsusb_cmd Captured])).
  assert (Hrec : record_device (state_of (h :: hs)) 0 w1 =
            (Err FileNotFoundError,
             World fs1 (([] ++ [EvSpawn lsusb_cmd Captured]) ++
                        [EvPrint (running (cmd_record_device (devname (h_bus h) (h_device h))) ++ nl)]))).
  { unfold record_device, py_getitem. cbn [state_of bus device map lookup list_lookup].
    rewrite !lift_Ok. exact (pym_bind_Err _ _ _ _ _ (record_descriptor_launch_failure _ _ _ _ H1)). }
  eexists. split; [exact (pym_bind_Err _ _ _ _ _ Hrec)|]. cbn [events app]. split.
  - rewrite screen_at_exit_tty. cbn [map concat event_bytes app]. by rewrite app_nil_r.
  - intros Hlen. rewrite exit_screen_pipe_small
      by (cbn [printed map concat app]; by rewrite app_nil_r).
    cbn [children_output printed map concat app]. by rewrite app_nil_r.
Qed.

(** ** Witnesses *)

Lemma screen_pipe_small_witness :
  screen Pipe (iteration_events (lit "002") (lit "004") (lit "301a") sim_descriptor
                 sim_probe_output sim_probe_output) =
  children_output (iteration_events (lit "002") (lit "004") (lit "301a") sim_descriptor
                     sim_probe_output sim_probe_output) ++
  printed (iteration_events (lit "002") (lit "004") (lit "301a") sim_descriptor
             sim_probe_output sim_probe_output).
Proof. apply screen_pipe_small. vm_compute. reflexivity. Defined.

Lemma exit_screen_pipe_small_witness :
  screen_at_exit Pipe (Err FileNotFoundError)
    (events (snd (main (H := no_umockdev) (World ∅ [])))) =
  children_output (events (snd (main (H := no_umockdev) (World ∅ [])))) ++
  print_bytes (traceback FileNotFoundError) ++
  printed (events (snd (main (H := no_umockdev) (World ∅ [])))).
Proof. apply exit_screen_pipe_small. vm_compute. reflexivity. Defined.

Lemma iteration_screen_witness :
  exists b d p c2 o2 f2 f2' c3 o3 f3,
    bus sample_state !! 0%nat = Some b /\ device sample_state !! 0%nat = Some d /\
    pid sample_state !! 0%nat = Some p /\
    run_program (Externals := sim_externals) (cmd_record_ioctl (devname b d) (basename b d) p) f2
      = Some (c2, o2, f2') /\
    run_program (Externals := sim_externals) (cmd_replay (devname b d) (basename b d) p) f2'
      = Some (c3, o3, f3) /\
    let dn := devname b d in
    let bn := basename b d in
    let e1 := print_bytes (running (cmd_record_device dn) ++ nl) in
    let e2 := print_bytes ((nl ++ running (cmd_record_ioctl dn bn p)) ++ nl) in
    let e3 := print_bytes ((nl ++ running (cmd_replay dn bn p)) ++ nl) in
    let e4 := print_bytes (nl ++ nl) in
    screen Tty (events (snd (record_device (H := sim_externals) sample_state 0%nat (World ∅ [])))) =
      e1 ++ e2 ++ child_bytes o2 ++ e3 ++ child_bytes o3 ++ e4 /\
    ((Z.of_nat (length (e1 ++ e2 ++ e3 ++ e4)) < buffer_size)%Z ->
     screen Pipe (events (snd (record_device (H := sim_externals) sample_state 0%nat (World ∅ [])))) =
       child_bytes o2 ++ child_bytes o3 ++ e1 ++ e2 ++ e3 ++ e4).
Proof.
  apply (@iteration_screen sim_externals sample_state 0%nat ∅). vm_compute. reflexivity.
Defined.

Lemma main_launch_failure_screen_witness :
  let e1 := print_bytes (running (cmd_record_device (devname (lit "002") (lit "004"))) ++ nl) in
  exists w, main (H := no_umockdev) (World ∅ []) = (Err FileNotFoundError, w) /\
    screen_at_exit Tty (Err FileNotFoundError) (events w) =
      e1 ++ print_bytes (traceback FileNotFoundError) /\
    ((Z.of_nat (length e1) < buffer_size)%Z ->
     screen_at_exit Pipe (Err FileNotFoundError) (events w) =
       print_bytes (traceback FileNotFoundError) ++ e1).
Proof.
  apply (@main_launch_failure_screen no_umockdev ∅ ∅ 0 sim_lsusb sim_listing_text
           (DeviceHandle (lit "002") (lit "004") (lit "301a")) []);
    vm_compute; reflexivity.
Defined.

End Console.
